(** * vlbiplanobs.stations: stations and networks of radio antennas

    A shallow embedding of [vlbiplanobs/stations.py] (classes [Station],
    [SelectedStation] and [Stations]) followed by the properties of its
    catalogue operations.

    Conventions of the embedding:
    - a Python [dict] is an insertion-ordered association list with at most
      one entry per key ([PyDict]);
    - a call that may raise returns a [result]; a method that mutates
      [self] returns the new object, paired with the outcome when it can
      raise (the object is then the one left behind by the exception);
    - a Python [float] is a binary64 number ([spec_float]), a Python [int]
      is a [Z];
    - the sky geometry of astroplan's [Observer] is an interface
      ([SkyGeometry]), everything else is computed. *)

From Stdlib Require Import ZArith String Ascii SpecFloat.
From stdpp Require Import base tactics option list strings sorting.

Open Scope string_scope.
Open Scope list_scope.

(** ** Exceptions *)

Inductive exn : Set :=
  | AssertionError
  | KeyError
  | IndexError
  | TypeError
  | NameError.

Inductive result (A : Type) : Type :=
  | Ok (a : A)
  | Raise (e : exn).
Arguments Ok {A} a.
Arguments Raise {A} e.

#[global] Instance result_ret : MRet result := fun A a => Ok a.
#[global] Instance result_bind : MBind result := fun A B f m =>
  match m with
  | Ok a => f a
  | Raise e => Raise e
  end.
#[global] Instance result_fmap : FMap result := fun A B f m =>
  match m with
  | Ok a => Ok (f a)
  | Raise e => Raise e
  end.

(** [assert cond] *)
Definition py_assert (cond : bool) : result unit :=
  if cond then Ok tt else Raise AssertionError.

(** ** Python values that reach the code dynamically typed *)

Inductive pyval : Set :=
  | PyNone
  | PyBool (b : bool)
  | PyInt (z : Z)
  | PyFloat (f : spec_float)
  | PyStr (s : string).

(** [isinstance(v, bool)] *)
Definition isinstance_bool (v : pyval) : bool :=
  match v with
  | PyBool _ => true
  | _ => false
  end.

(** The argument of [Stations.__getitem__] and [Stations.__delitem__]: a
    position, for which [isinstance(key, int)] holds, or a codename. *)
Inductive key : Set :=
  | key_int (i : Z)
  | key_str (s : string).

(** [x in xs] on a sequence or a view of keys *)
Fixpoint py_in (x : string) (xs : list string) : bool :=
  match xs with
  | [] => false
  | y :: xs' => if decide (x = y) then true else py_in x xs'
  end.

(** [t[i]] on a tuple: negative positions count from the end, anything
    outside [-len, len) is an [IndexError]. *)
Definition tuple_getitem {A} (t : list A) (i : Z) : result A :=
  let n := Z.of_nat (length t) in
  let j := if (i <? 0)%Z then (i + n)%Z else i in
  if (0 <=? j)%Z && (j <? n)%Z then
    match t !! Z.to_nat j with
    | Some a => Ok a
    | None => Raise IndexError
    end
  else Raise IndexError.

(** What an attribute access evaluates to before it is subscripted:
    [self.keys()] is a tuple, [self.keys] is the bound method itself. *)
Inductive subscriptable : Type :=
  | tuple_value (t : list string)
  | bound_method (name : string).

(** [o[i]]: a method object has no [__getitem__]. *)
Definition subscript (o : subscriptable) (i : Z) : result string :=
  match o with
  | tuple_value t => tuple_getitem t i
  | bound_method _ => Raise TypeError
  end.

(** [s.replace(old, new)] for one-character [old] and [new]. *)
Fixpoint str_replace (old new : ascii) (s : string) : string :=
  match s with
  | EmptyString => EmptyString
  | String c s' =>
      String (if Ascii.eqb c old then new else c) (str_replace old new s')
  end.

(** ** Dictionaries *)

Module PyDict.

Definition dict (V : Type) : Type := list (string * V).

Section Ops.
Context {V : Type}.

(** [d.keys()], in insertion order *)
Definition keys (d : dict V) : list string := fst <$> d.

(** [d.values()], in insertion order *)
Definition values (d : dict V) : list V := snd <$> d.

(** [k in d] *)
Fixpoint contains (k : string) (d : dict V) : bool :=
  match d with
  | [] => false
  | (k', _) :: d' => if decide (k = k') then true else contains k d'
  end.

(** [d[k]] *)
Fixpoint getitem (k : string) (d : dict V) : result V :=
  match d with
  | [] => Raise KeyError
  | (k', v) :: d' => if decide (k = k') then Ok v else getitem k d'
  end.

(** [d[k] = v]: an existing key keeps its place, a new one goes last. *)
Fixpoint setitem (k : string) (v : V) (d : dict V) : dict V :=
  match d with
  | [] => [(k, v)]
  | (k', v') :: d' =>
      if decide (k = k') then (k, v) :: d' else (k', v') :: setitem k v d'
  end.

(** [d.__delitem__(k)] *)
Fixpoint delitem (k : string) (d : dict V) : result (dict V) :=
  match d with
  | [] => Raise KeyError
  | (k', v') :: d' =>
      if decide (k = k') then Ok d' else cons (k', v') <$> delitem k d'
  end.

(** A dictionary holds one entry per key. *)
Definition wf (d : dict V) : Prop := NoDup (keys d).
End Ops.

End PyDict.

(** ** Angles and the sky geometry provider *)

(** An astropy [Quantity] in degrees, the only angular unit of the module. *)
Inductive Quantity : Set :=
  | Deg (value : spec_float).

Definition deg_value (q : Quantity) : spec_float :=
  match q with
  | Deg v => v
  end.

(** [float(z)] *)
Definition Z2SF (z : Z) : spec_float := binary_normalize 53 1024 z 0 false.

(** [a >= b] on quantities of the same unit (false on NaN). *)
Definition Quantity_ge (a b : Quantity) : bool :=
  SFleb (deg_value b) (deg_value a).

(** [coord.EarthLocation(x, y, z)], geocentric metres. *)
Record EarthLocation : Set := {
  loc_x : spec_float;
  loc_y : spec_float;
  loc_z : spec_float
}.

(** [astroplan.Observer(name=..., location=...)] *)
Record Observer : Set := {
  obs_name : string;
  obs_location : EarthLocation
}.

(** The coordinates [Observer.altaz] returns, one per observing time. *)
Record AltAz : Set := {
  alt : list Quantity;
  az : list Quantity
}.

(** The one capability used of astroplan: [observer.altaz(times, target)]. *)
Class SkyGeometry (Time Target : Type) : Type := {
  observer_altaz : Observer -> Time -> Target -> AltAz
}.

(** [np.where(mask)] for a one-dimensional mask: the positions holding
    [True], ascending (numpy wraps them in a 1-tuple). *)
Fixpoint np_where_from (i : nat) (mask : list bool) : list nat :=
  match mask with
  | [] => []
  | b :: mask' =>
      if b then i :: np_where_from (S i) mask' else np_where_from (S i) mask'
  end.

Definition np_where (mask : list bool) : list nat := np_where_from 0 mask.

(** ** class Station *)

Module Station.

(** What callers pass as [min_elevation]: a bare number, which the
    constructor takes as degrees, or a quantity (an [int] is converted as
    [float] does, within the binary64 range). *)
Inductive min_elevation_arg : Set :=
  | bare_float (f : spec_float)
  | bare_int (z : Z)
  | quantity (q : Quantity).

(** The default [20*u.deg] *)
Definition default_min_elevation : min_elevation_arg :=
  quantity (Deg (Z2SF 20)).

Record t : Type := {
  observer : Observer;
  _codename : string;
  _network : string;
  _freqs_sefds : PyDict.dict spec_float;
  _min_elev : Quantity;
  _fullname : string;
  _all_networks : string;
  _country : string;
  _diameter : string;
  _real_time : bool
}.

Definition __init__ (name codename network : string)
    (location : EarthLocation) (freqs_sefds : PyDict.dict spec_float)
    (min_elevation : min_elevation_arg)
    (fullname all_networks : option string)
    (country diameter : string) (real_time : bool) : t :=
  {| observer :=
       {| obs_name := str_replace "_" " " name; obs_location := location |};
     _codename := codename;
     _network := network;
     _freqs_sefds := freqs_sefds;
     _min_elev :=
       match min_elevation with
       | bare_float f => Deg f
       | bare_int z => Deg (Z2SF z)
       | quantity q => q
       end;
     _fullname :=
       match fullname with
       | None => name
       | Some fullname => fullname
       end;
     _all_networks :=
       match all_networks with
       | None => network
       | Some all_networks => all_networks
       end;
     _country := country;
     _diameter := diameter;
     _real_time := real_time |}.

Definition name (self : t) : string := obs_name (observer self).
Definition codename (self : t) : string := _codename self.
Definition fullname (self : t) : string := _fullname self.
Definition network (self : t) : string := _network self.
Definition all_networks (self : t) : string := _all_networks self.
Definition country (self : t) : string := _country self.
Definition diameter (self : t) : string := _diameter self.
Definition real_time (self : t) : bool := _real_time self.
Definition location (self : t) : EarthLocation := obs_location (observer self).
Definition bands (self : t) : list string := PyDict.keys (_freqs_sefds self).
Definition sefds (self : t) : PyDict.dict spec_float := _freqs_sefds self.
Definition min_elevation (self : t) : Quantity := _min_elev self.

Section Sky.
Context {Time Target : Type} `{!SkyGeometry Time Target}.

Definition altaz (self : t) (obs_times : Time) (target : Target) : AltAz :=
  observer_altaz (observer self) obs_times target.

Definition elevation (self : t) (obs_times : Time) (target : Target)
    : list Quantity :=
  alt (observer_altaz (observer self) obs_times target).

Definition is_visible (self : t) (obs_times : Time) (target : Target)
    : list nat :=
  let elevations := elevation self obs_times target in
  np_where ((fun e => Quantity_ge e (min_elevation self)) <$> elevations).
End Sky.

Definition has_band (self : t) (band : string) : bool :=
  py_in band (bands self).

Definition sefd (self : t) (band : string) : result spec_float :=
  PyDict.getitem band (_freqs_sefds self).

Definition __str__ (self : t) : string := "<" +:+ codename self +:+ ">".

End Station.

(** ** class SelectedStation(Station) *)

Module SelectedStation.

Record t : Type := {
  super : Station.t;
  _selected : pyval
}.

Definition __init__ (name codename network : string)
    (location : EarthLocation) (freqs_sefds : PyDict.dict spec_float)
    (min_elevation : Station.min_elevation_arg)
    (fullname all_networks : option string)
    (country diameter : string) (real_time : bool) (selected : pyval) : t :=
  {| _selected := selected;
     super := Station.__init__ name codename network location freqs_sefds
                min_elevation fullname all_networks country diameter
                real_time |}.

Definition selected (self : t) : pyval := _selected self.

(** The setter of [selected]: the outcome and the object afterwards. *)
Definition set_selected (isselected : pyval) (self : t) : result unit * t :=
  match py_assert (isinstance_bool isselected) with
  | Raise e => (Raise e, self)
  | Ok _ => (Ok tt, {| super := super self; _selected := isselected |})
  end.

End SelectedStation.

(** What [Stations] asks of its members: the attributes of a [Station],
    which [SelectedStation] inherits. *)
Class StationLike (A : Type) : Type := {
  as_station : A -> Station.t
}.

#[global] Instance Station_like : StationLike Station.t :=
  {| as_station := fun s => s |}.
#[global] Instance SelectedStation_like : StationLike SelectedStation.t :=
  {| as_station := SelectedStation.super |}.

(** ** class Stations *)

(** The names bound in the module's namespace once [stations.py] has been
    executed: its imports and its three classes. *)
Definition module_globals : list string :=
  ["configparser"; "resources"; "np"; "u"; "coord"; "ascii"; "Time";
   "Observer"; "Station"; "SelectedStation"; "Stations"].

(** Reading a global name that no statement has bound is a [NameError]. *)
Definition load_global (globals : list string) (x : string) : result unit :=
  if py_in x globals then Ok tt else Raise NameError.

Module Stations.

Record t (A : Type) : Type := {
  _name : string;
  _stations : PyDict.dict A;
  _keys : list string
}.
Arguments _name {A} _.
Arguments _stations {A} _.
Arguments _keys {A} _.

Section Methods.
Context {A : Type} `{!StationLike A}.

(** [a_station.codename] *)
Definition codename_of (a_station : A) : string :=
  Station.codename (as_station a_station).

(** The [for] loop of the constructor over the stations still to insert. *)
Fixpoint init_loop (stations : list A) (d : PyDict.dict A)
    : result (PyDict.dict A) :=
  match stations with
  | [] => Ok d
  | a_station :: rest =>
      py_assert (negb (py_in (codename_of a_station) (PyDict.keys d)));;
      init_loop rest (PyDict.setitem (codename_of a_station) a_station d)
  end.

Definition __init__ (name : string) (stations : list A) : result (t A) :=
  d ← init_loop stations [];
  Ok {| _name := name; _stations := d; _keys := PyDict.keys d |}.

Definition name (self : t A) : string := _name self.

Definition stations (self : t A) : list A := PyDict.values (_stations self).

Definition number_of_stations (self : t A) : nat := length (stations self).

(** [add] never raises: it returns what it printed and the registry. *)
Definition add (a_station : A) (self : t A) : list string * t A :=
  let printed :=
    if py_in (codename_of a_station) (PyDict.keys (_stations self))
    then ["WARNING: " +:+ codename_of a_station +:+ " already in "
            +:+ name self +:+ "."]
    else [] in
  let d := PyDict.setitem (codename_of a_station) a_station (_stations self) in
  (printed, {| _name := _name self; _stations := d; _keys := PyDict.keys d |}).

Definition keys (self : t A) : list string := _keys self.

Definition __len__ (self : t A) : nat := length (_stations self).

Definition __getitem__ (k : key) (self : t A) : result A :=
  match k with
  | key_int i =>
      c ← subscript (tuple_value (keys self)) i;
      PyDict.getitem c (_stations self)
  | key_str s => PyDict.getitem s (_stations self)
  end.

Definition __setitem__ (k : string) (value : A) (self : t A) : t A :=
  let d := PyDict.setitem k value (_stations self) in
  {| _name := _name self; _stations := d; _keys := PyDict.keys d |}.

(** The outcome of [del self[k]] and the registry afterwards. *)
Definition __delitem__ (k : key) (self : t A) : result unit * t A :=
  let deleted :=
    match k with
    | key_int i =>
        c ← subscript (bound_method "keys") i;
        PyDict.delitem c (_stations self)
    | key_str s => PyDict.delitem s (_stations self)
    end in
  match deleted with
  | Raise e => (Raise e, self)
  | Ok d =>
      (Ok tt, {| _name := _name self; _stations := d; _keys := PyDict.keys d |})
  end.

Definition __iter__ (self : t A) : list A := PyDict.values (_stations self).

Definition __contains__ (item : string) (self : t A) : bool :=
  PyDict.contains item (_stations self).

(** The [for] loop of [stations_with_band]: the stations still to visit,
    the registry built so far and what has been printed. *)
Fixpoint with_band_loop (band : string) (todo : list A) (antennas : t A)
    (printed : list string) : list string * t A :=
  match todo with
  | [] => (printed, antennas)
  | station :: rest =>
      if py_in band (Station.bands (as_station station))
      then with_band_loop band rest (add station antennas).2
             (printed ++ (add station antennas).1)
      else with_band_loop band rest antennas printed
  end.

(** [stations_with_band] run in a module namespace [globals]; once the name
    [stations] resolves, [stations.Stations] is this class. *)
Definition stations_with_band_in (globals : list string) (band : string)
    (output_network_name : option string) (self : t A)
    : result (list string * t A) :=
  let output_network_name :=
    match output_network_name with
    | None => "Stations@" +:+ band
    | Some n => n
    end in
  load_global globals "stations";;
  antennas ← __init__ output_network_name [];
  Ok (with_band_loop band (stations self) antennas []).

Definition stations_with_band (band : string)
    (output_network_name : option string) (self : t A)
    : result (list string * t A) :=
  stations_with_band_in module_globals band output_network_name self.

(** The registries a program can hold: built by the constructor, then
    changed by [add], assignment and deletion (a deletion that raises leaves
    the registry it found). *)
Inductive reachable : t A -> Prop :=
  | reach_init name sts r :
      __init__ name sts = Ok r -> reachable r
  | reach_add a_station r :
      reachable r -> reachable (add a_station r).2
  | reach_setitem k value r :
      reachable r -> reachable (__setitem__ k value r)
  | reach_delitem k r :
      reachable r -> reachable (__delitem__ k r).2.

(** The entry the constructor and [add] file a station under. *)
Definition entry_of (a_station : A) : string * A :=
  (codename_of a_station, a_station).

(** The cached tuple is the key sequence of the mapping, and the mapping has
    one entry per key. *)
Definition registry_inv (self : t A) : Prop :=
  keys self = PyDict.keys (_stations self) ∧ PyDict.wf (_stations self).

(** Every station is filed under its own codename. *)
Definition keyed_by_codename (self : t A) : Prop :=
  ∀ k a_station, (k, a_station) ∈ _stations self → k = codename_of a_station.

(** The registries obtained without assignment by key: built by the
    constructor, then changed by [add] and deletion only. *)
Inductive built : t A -> Prop :=
  | built_init name sts r :
      __init__ name sts = Ok r -> built r
  | built_add a_station r :
      built r -> built (add a_station r).2
  | built_delitem k r :
      built r -> built (__delitem__ k r).2.

(** [for a_station in stations: self.add(a_station)], the way
    [get_stations_from_configfile] fills the registry it has created empty:
    what the calls print and the registry afterwards. *)
Fixpoint add_each (stations : list A) (self : t A) (printed : list string)
    : list string * t A :=
  match stations with
  | [] => (printed, self)
  | a_station :: rest =>
      add_each rest (add a_station self).2 (printed ++ (add a_station self).1)
  end.

End Methods.

End Stations.

(** ** A small catalogue to run the code on *)

Definition Ef : Station.t :=
  Station.__init__ "Effelsberg" "Ef" "EVN"
    {| loc_x := Z2SF 4033947; loc_y := Z2SF 486990; loc_z := Z2SF 4900431 |}
    [("18cm", Z2SF 19); ("6cm", Z2SF 20)]
    Station.default_min_elevation None None "Germany" "100 m" true.

Definition Jb2 : Station.t :=
  Station.__init__ "Jodrell_Bank_Mk2" "Jb" "EVN"
    {| loc_x := Z2SF 3822846; loc_y := Z2SF (-153802); loc_z := Z2SF 5086285 |}
    [("18cm", Z2SF 320)]
    (Station.bare_int 20) None (Some "EVN, eMERLIN") "United Kingdom" "25 m"
    true.

Definition Wb : Station.t :=
  Station.__init__ "Westerbork" "Wb" "EVN"
    {| loc_x := Z2SF 3828750; loc_y := Z2SF 442589; loc_z := Z2SF 5064921 |}
    [("6cm", Z2SF 840)]
    Station.default_min_elevation (Some "Westerbork RT1") None "Netherlands"
    "25 m" false.

(** A second record that claims the codename of [Ef]. *)
Definition Ef' : Station.t :=
  Station.__init__ "Effelsberg_new" "Ef" "EVN"
    {| loc_x := Z2SF 4033947; loc_y := Z2SF 486990; loc_z := Z2SF 4900431 |}
    [("21cm", Z2SF 20)]
    Station.default_min_elevation None None "Germany" "100 m" false.

(** [Ef] restricted to elevations of 25 degrees and more. *)
Definition Ef25 : Station.t :=
  Station.__init__ "Effelsberg" "Ef" "EVN"
    {| loc_x := Z2SF 4033947; loc_y := Z2SF 486990; loc_z := Z2SF 4900431 |}
    [("18cm", Z2SF 19); ("6cm", Z2SF 20)]
    (Station.bare_int 25) None None "Germany" "100 m" true.

(** [Stations('EVN', [Ef, Jb2])], as the constructor leaves it. *)
Definition evn : Stations.t Station.t :=
  {| Stations._name := "EVN";
     Stations._stations := [("Ef", Ef); ("Jb", Jb2)];
     Stations._keys := ["Ef"; "Jb"] |}.

(** A provider whose elevations are given with the observing times. *)
#[local] Instance synthetic_sky : SkyGeometry (list Z) unit :=
  {| observer_altaz := fun _ obs_times _ =>
       {| alt := (fun e => Deg (Z2SF e)) <$> obs_times; az := [] |} |}.

(** * Properties *)

(** ** Membership and dictionaries *)

Lemma py_in_true (x : string) (xs : list string) :
  py_in x xs = true ↔ x ∈ xs.
Proof.
  induction xs as [|y xs IH]; simpl.
  - split; [discriminate | intros H; inversion H].
  - destruct (decide (x = y)) as [->|Hne].
    + split; [intros _; left | reflexivity].
    + rewrite IH. split; [by right |].
      intros H. apply elem_of_cons in H as [?|?]; [contradiction | done].
Qed.

Lemma py_in_false (x : string) (xs : list string) :
  py_in x xs = false ↔ x ∉ xs.
Proof.
  rewrite <- py_in_true. destruct (py_in x xs); split; congruence.
Qed.

Section DictFacts.
Context {V : Type}.
Implicit Types (d : PyDict.dict V) (k : string) (v : V).

Lemma dict_contains_keys k d :
  PyDict.contains k d = py_in k (PyDict.keys d).
Proof.
  induction d as [|[k' v'] d IH]; simpl; [done |].
  by destruct (decide (k = k')).
Qed.

Lemma dict_length_keys d : length (PyDict.keys d) = length d.
Proof. apply length_fmap. Qed.

Lemma dict_length_values d : length (PyDict.values d) = length d.
Proof. apply length_fmap. Qed.

Lemma dict_getitem_elem k v d :
  PyDict.getitem k d = Ok v → (k, v) ∈ d.
Proof.
  induction d as [|[k' v'] d IH]; simpl; [discriminate |].
  destruct (decide (k = k')) as [->|Hne].
  - intros [= ->]. left.
  - intros H. right. by apply IH.
Qed.

Lemma dict_getitem_stored k v d :
  PyDict.wf d → (k, v) ∈ d → PyDict.getitem k d = Ok v.
Proof.
  unfold PyDict.wf.
  induction d as [|[k' v'] d IH]; simpl; intros Hwf Hin.
  - inversion Hin.
  - apply NoDup_cons in Hwf as [Hk' Hwf].
    apply elem_of_cons in Hin as [[= -> ->]|Hin].
    + by rewrite decide_True.
    + destruct (decide (k = k')) as [->|Hne]; [| by apply IH].
      exfalso. apply Hk'.
      change k' with (fst (k', v)). by apply list_elem_of_fmap_2.
Qed.

Lemma dict_getitem_missing k d :
  k ∉ PyDict.keys d → PyDict.getitem k d = Raise KeyError.
Proof.
  induction d as [|[k' v'] d IH]; simpl; [done |].
  intros Hk. apply not_elem_of_cons in Hk as [Hne Hk].
  rewrite decide_False by done. by apply IH.
Qed.

Lemma dict_getitem_present k d :
  k ∈ PyDict.keys d → ∃ v, PyDict.getitem k d = Ok v.
Proof.
  induction d as [|[k' v'] d IH]; simpl; intros Hk; [inversion Hk |].
  destruct (decide (k = k')) as [->|Hne]; [by eexists |].
  apply elem_of_cons in Hk as [?|Hk]; [contradiction | by apply IH].
Qed.

Lemma dict_setitem_new k v d :
  k ∉ PyDict.keys d → PyDict.setitem k v d = d ++ [(k, v)].
Proof.
  induction d as [|[k' v'] d IH]; simpl; [done |].
  intros Hk. apply not_elem_of_cons in Hk as [Hne Hk].
  rewrite decide_False by done. by rewrite IH.
Qed.

Lemma dict_setitem_keys_old k v d :
  k ∈ PyDict.keys d → PyDict.keys (PyDict.setitem k v d) = PyDict.keys d.
Proof.
  induction d as [|[k' v'] d IH]; simpl; intros Hk; [inversion Hk |].
  destruct (decide (k = k')) as [->|Hne]; [done |].
  apply elem_of_cons in Hk as [?|Hk]; [contradiction |].
  simpl. f_equal. by apply IH.
Qed.

Lemma dict_setitem_keys_new k v d :
  k ∉ PyDict.keys d → PyDict.keys (PyDict.setitem k v d) = PyDict.keys d ++ [k].
Proof.
  intros Hk. rewrite dict_setitem_new by done.
  unfold PyDict.keys. by rewrite fmap_app.
Qed.

Lemma dict_setitem_get k v d :
  PyDict.getitem k (PyDict.setitem k v d) = Ok v.
Proof.
  induction d as [|[k' v'] d IH]; simpl.
  - by rewrite decide_True.
  - destruct (decide (k = k')) as [->|Hne]; simpl.
    + by rewrite decide_True.
    + by rewrite decide_False.
Qed.

Lemma dict_setitem_get_other k k' v d :
  k' ≠ k → PyDict.getitem k' (PyDict.setitem k v d) = PyDict.getitem k' d.
Proof.
  intros Hne. induction d as [|[k0 v0] d IH]; simpl.
  - by rewrite decide_False.
  - destruct (decide (k = k0)) as [->|Hne0]; simpl.
    + by rewrite !decide_False.
    + destruct (decide (k' = k0)); [done | apply IH].
Qed.

Lemma dict_setitem_wf k v d :
  PyDict.wf d → PyDict.wf (PyDict.setitem k v d).
Proof.
  unfold PyDict.wf. intros Hwf.
  destruct (decide (k ∈ PyDict.keys d)) as [Hin|Hnin].
  - by rewrite dict_setitem_keys_old.
  - rewrite dict_setitem_keys_new by done.
    apply NoDup_app. split_and!; [done | | apply NoDup_singleton].
    intros x Hx Hx'. apply list_elem_of_singleton in Hx' as ->. done.
Qed.

Lemma dict_delitem_raises k d e :
  PyDict.delitem k d = Raise e → e = KeyError ∧ k ∉ PyDict.keys d.
Proof.
  induction d as [|[k' v'] d IH]; simpl.
  - intros [= <-]. split; [done | apply not_elem_of_nil].
  - destruct (decide (k = k')) as [->|Hne]; [discriminate |].
    destruct (PyDict.delitem k d) as [d'|e'] eqn:Hdel; [discriminate |].
    intros [= <-]. destruct (IH eq_refl) as [-> Hk].
    split; [done |]. by apply not_elem_of_cons.
Qed.

Lemma dict_delitem_keys k d d' :
  PyDict.wf d → PyDict.delitem k d = Ok d' →
  PyDict.keys d' = filter (λ k', k' ≠ k) (PyDict.keys d).
Proof.
  unfold PyDict.wf. revert d'.
  induction d as [|[k' v'] d IH]; simpl; intros d' Hwf; [discriminate |].
  apply NoDup_cons in Hwf as [Hk' Hwf].
  destruct (decide (k = k')) as [->|Hne].
  - intros [= <-]. rewrite filter_cons_False by (intros ?; done).
    symmetry. apply list_eq_Forall2, Forall2_same_length_lookup.
    assert (Hall : Forall (λ x, x ≠ k') (PyDict.keys d)).
    { apply Forall_forall. intros x Hx ->. done. }
    clear -Hall. induction Hall as [|x l Hx Hl IH]; [done |].
    rewrite filter_cons_True by done.
    destruct IH as [IH1 IH2]. split; [simpl; by rewrite IH1 |].
    intros [|i] y z; simpl; [congruence | apply IH2].
  - destruct (PyDict.delitem k d) as [d0|e0] eqn:Hdel; [| discriminate].
    intros [= <-]. simpl.
    rewrite filter_cons_True by (intros ?; by subst).
    f_equal. by apply IH.
Qed.
End DictFacts.

(** ** Stations *)

Lemma str_replace_length (old new : ascii) (s : string) :
  String.length (str_replace old new s) = String.length s.
Proof. induction s as [|c s IH]; simpl; [done | by rewrite IH]. Qed.

Lemma str_replace_get (old new : ascii) (s : string) (i : nat) :
  String.get i (str_replace old new s)
  = (λ c, if Ascii.eqb c old then new else c) <$> String.get i s.
Proof.
  revert i. induction s as [|c s IH]; intros i; simpl; [done |].
  destruct i as [|i]; [done | apply IH].
Qed.

Lemma np_where_from_elem (i : nat) (mask : list bool) (j : nat) :
  j ∈ np_where_from i mask ↔ ∃ n, j = (i + n)%nat ∧ mask !! n = Some true.
Proof.
  revert i. induction mask as [|b mask IH]; intros i; simpl.
  - split; [intros H; inversion H | intros (n & _ & H); discriminate].
  - assert (Htail : j ∈ np_where_from (S i) mask
                    ↔ ∃ n, j = (i + S n)%nat ∧ mask !! n = Some true).
    { rewrite IH. split; intros (n & -> & Hn); exists n; split; [lia|done|lia|done]. }
    destruct b.
    + rewrite elem_of_cons, Htail. split.
      * intros [->|(n & -> & Hn)]; [exists 0%nat | exists (S n)]; split;
          [lia | done | done | done].
      * intros ([|n] & -> & Hn); [left; lia | right; by exists n].
    + rewrite Htail. split.
      * intros (n & -> & Hn). by exists (S n).
      * intros ([|n] & -> & Hn); [discriminate | by exists n].
Qed.

Lemma np_where_from_sorted (i : nat) (mask : list bool) :
  StronglySorted lt (np_where_from i mask).
Proof.
  revert i. induction mask as [|b mask IH]; intros i; simpl; [constructor |].
  destruct b; [| apply IH].
  constructor; [apply IH |].
  apply Forall_forall. intros j Hj.
  apply np_where_from_elem in Hj as (n & -> & _). lia.
Qed.

(** C10: the name of a station is the name it was constructed with, every
    underscore turned into a space (character by character, nothing else
    changed); the full name, when none is supplied, is the constructor's
    name untouched, so the two differ as soon as the name has an
    underscore. *)
Theorem station_name_unders_fullname_default
    (nm cn net : string) (loc : EarthLocation) (fs : PyDict.dict spec_float)
    (me : Station.min_elevation_arg) (alln : option string)
    (country diam : string) (rt : bool) :
  let st := Station.__init__ nm cn net loc fs me None alln country diam rt in
  Station.name st = str_replace "_" " " nm
  ∧ String.length (Station.name st) = String.length nm
  ∧ (∀ i, String.get i (Station.name st)
          = (λ c, if Ascii.eqb c "_" then " "%char else c) <$> String.get i nm)
  ∧ Station.fullname st = nm
  ∧ ((∃ i, String.get i nm = Some "_"%char) →
     Station.name st ≠ Station.fullname st).
Proof.
  intros st. subst st. unfold Station.name, Station.fullname. simpl.
  split_and!; [done | apply str_replace_length | apply str_replace_get | done |].
  intros [i Hi] Heq.
  pose proof (str_replace_get "_" " " nm i) as Hget.
  rewrite Heq, Hi in Hget. simpl in Hget. discriminate.
Qed.

Lemma station_name_unders_fullname_default_witness :
  Station.name Jb2 = "Jodrell Bank Mk2"
  ∧ Station.fullname Jb2 = "Jodrell_Bank_Mk2"
  ∧ Station.name Jb2 ≠ Station.fullname Jb2.
Proof.
  pose proof (station_name_unders_fullname_default "Jodrell_Bank_Mk2" "Jb" "EVN"
    {| loc_x := Z2SF 3822846; loc_y := Z2SF (-153802); loc_z := Z2SF 5086285 |}
    [("18cm", Z2SF 320)] (Station.bare_int 20) (Some "EVN, eMERLIN")
    "United Kingdom" "25 m" true) as (Hname & _ & _ & Hfull & Hdiff).
  split_and!.
  - exact Hname.
  - exact Hfull.
  - apply Hdiff. exists 7%nat. reflexivity.
Defined.

(** C4: on a station whose SEFD mapping is a dictionary, [has_band] answers
    whether the band is a key of the mapping; [sefd] returns the value stored
    under a key and raises [KeyError] for a band that is not one. *)
Theorem has_band_sefd_lookup (st : Station.t) (band : string) :
  PyDict.wf (Station.sefds st) →
  (Station.has_band st band = true ↔ band ∈ PyDict.keys (Station.sefds st))
  ∧ (∀ v, (band, v) ∈ Station.sefds st →
          Station.has_band st band = true ∧ Station.sefd st band = Ok v)
  ∧ (band ∉ PyDict.keys (Station.sefds st) →
     Station.has_band st band = false
     ∧ Station.sefd st band = Raise KeyError).
Proof.
  unfold Station.has_band, Station.sefd, Station.bands, Station.sefds.
  intros Hwf. split_and!.
  - apply py_in_true.
  - intros v Hin. split; [| by apply dict_getitem_stored].
    apply py_in_true. change band with (fst (band, v)).
    by apply list_elem_of_fmap_2.
  - intros Hout. split; [by apply py_in_false | by apply dict_getitem_missing].
Qed.

Lemma has_band_sefd_lookup_witness :
  (Station.has_band Ef "6cm" = true ∧ Station.sefd Ef "6cm" = Ok (Z2SF 20))
  ∧ (Station.has_band Ef "21cm" = false
     ∧ Station.sefd Ef "21cm" = Raise KeyError).
Proof.
  assert (Hwf : PyDict.wf (Station.sefds Ef)).
  { unfold PyDict.wf. apply (bool_decide_unpack _). vm_compute. exact I. }
  split.
  - apply (has_band_sefd_lookup Ef "6cm" Hwf).
    apply list_elem_of_further, list_elem_of_here.
  - apply (has_band_sefd_lookup Ef "21cm" Hwf).
    apply (bool_decide_unpack _). vm_compute. exact I.
Defined.

(** C5: [is_visible] returns the positions of the observing times at which
    the elevation of the target is at least the station's minimum elevation,
    each once and in ascending order; with a minimum of 20 degrees and
    elevations of 10, 25 and 30 degrees these are the positions 1 and 2. *)
Theorem is_visible_positions {Time Target : Type} `{!SkyGeometry Time Target}
    (st : Station.t) (obs_times : Time) (target : Target) :
  (∀ i, i ∈ Station.is_visible st obs_times target
        ↔ ∃ e, Station.elevation st obs_times target !! i = Some e
               ∧ Quantity_ge e (Station.min_elevation st) = true)
  ∧ StronglySorted lt (Station.is_visible st obs_times target)
  ∧ (Station.min_elevation st = Deg (Z2SF 20) →
     Station.elevation st obs_times target
       = [Deg (Z2SF 10); Deg (Z2SF 25); Deg (Z2SF 30)] →
     Station.is_visible st obs_times target = [1%nat; 2%nat]).
Proof.
  unfold Station.is_visible, np_where. split_and!.
  - intros i. rewrite np_where_from_elem. split.
    + intros (n & -> & Hn). simpl.
      rewrite list_lookup_fmap in Hn.
      destruct (Station.elevation st obs_times target !! n) as [e|];
        [| discriminate].
      exists e. split; [done |]. simpl in Hn. congruence.
    + intros (e & He & Hge). exists i. split; [done |].
      by rewrite list_lookup_fmap, He; simpl; rewrite Hge.
  - apply np_where_from_sorted.
  - intros -> ->. reflexivity.
Qed.

Lemma is_visible_positions_witness :
  Station.is_visible Ef [10; 25; 30]%Z tt = [1%nat; 2%nat].
Proof.
  apply (is_visible_positions Ef [10; 25; 30]%Z tt); reflexivity.
Defined.

(** C9: assigning to [selected] a value that is not a [bool] fails in the
    assignment itself and leaves the stored flag as it was; assigning a
    [bool] succeeds and stores it, the rest of the station unchanged. *)
Theorem selected_setter_checks_type (s : SelectedStation.t) (v : pyval) :
  (isinstance_bool v = false →
   SelectedStation.set_selected v s = (Raise AssertionError, s))
  ∧ (∀ b, v = PyBool b →
          ∃ s', SelectedStation.set_selected v s = (Ok tt, s')
                ∧ SelectedStation.selected s' = PyBool b
                ∧ SelectedStation.super s' = SelectedStation.super s).
Proof.
  unfold SelectedStation.set_selected. split.
  - intros ->. reflexivity.
  - intros b ->. simpl. eexists. split_and!; reflexivity.
Qed.

Lemma selected_setter_checks_type_witness :
  SelectedStation.set_selected (PyInt 1)
    {| SelectedStation.super := Wb; SelectedStation._selected := PyBool true |}
  = (Raise AssertionError,
     {| SelectedStation.super := Wb; SelectedStation._selected := PyBool true |})
  ∧ ∃ s', SelectedStation.set_selected (PyBool false)
            {| SelectedStation.super := Wb;
               SelectedStation._selected := PyBool true |} = (Ok tt, s')
          ∧ SelectedStation.selected s' = PyBool false
          ∧ SelectedStation.super s' = Wb.
Proof.
  split.
  - apply (selected_setter_checks_type
             {| SelectedStation.super := Wb;
                SelectedStation._selected := PyBool true |} (PyInt 1)).
    reflexivity.
  - apply (selected_setter_checks_type
             {| SelectedStation.super := Wb;
                SelectedStation._selected := PyBool true |} (PyBool false)
             ).
    reflexivity.
Defined.

(** ** Registries *)

Section RegistryFacts.
Context {A : Type} `{!StationLike A}.
Implicit Types (r : Stations.t A) (a : A) (d : PyDict.dict A).

Lemma init_loop_distinct (sts : list A) d :
  NoDup (Stations.codename_of <$> sts) →
  (∀ a, a ∈ sts → Stations.codename_of a ∉ PyDict.keys d) →
  Stations.init_loop sts d = Ok (d ++ (Stations.entry_of <$> sts)).
Proof.
  revert d. induction sts as [|a sts IH]; intros d Hnd Hfresh; simpl.
  - by rewrite app_nil_r.
  - apply NoDup_cons in Hnd as [Ha Hnd].
    assert (Hd : Stations.codename_of a ∉ PyDict.keys d)
      by (apply Hfresh; left).
    apply py_in_false in Hd as Hd'. rewrite Hd'. simpl.
    rewrite dict_setitem_new by done.
    rewrite IH; [by rewrite <- app_assoc | done |].
    intros a' Ha'. unfold PyDict.keys. rewrite fmap_app. simpl.
    intros Hin. apply elem_of_app in Hin as [Hin|Hin].
    + by apply (Hfresh a'); [right |].
    + apply list_elem_of_singleton in Hin. apply Ha. rewrite <- Hin.
      by apply list_elem_of_fmap_2.
Qed.

Lemma init_loop_duplicate (sts : list A) d :
  ¬ (NoDup (Stations.codename_of <$> sts)
     ∧ ∀ a, a ∈ sts → Stations.codename_of a ∉ PyDict.keys d) →
  Stations.init_loop sts d = Raise AssertionError.
Proof.
  revert d. induction sts as [|a sts IH]; intros d Hneg; simpl.
  - exfalso. apply Hneg. split; [constructor |]. intros a Ha. inversion Ha.
  - destruct (py_in (Stations.codename_of a) (PyDict.keys d)) eqn:Hin;
      simpl; [done |].
    apply py_in_false in Hin.
    apply IH. intros [Hnd Hfresh]. apply Hneg.
    rewrite dict_setitem_keys_new in Hfresh by done.
    split.
    + simpl. apply NoDup_cons. split; [| done].
      intros Ha. apply list_elem_of_fmap in Ha as (a' & Heq & Ha').
      apply (Hfresh a' Ha'). rewrite <- Heq.
      apply elem_of_app. right. left.
    + intros a' Ha'. apply elem_of_cons in Ha' as [->|Ha']; [done |].
      intros Hd. apply (Hfresh a' Ha'). apply elem_of_app. by left.
Qed.

Lemma init_loop_wf (sts : list A) d d' :
  PyDict.wf d → Stations.init_loop sts d = Ok d' → PyDict.wf d'.
Proof.
  revert d. induction sts as [|a sts IH]; intros d Hwf; simpl.
  - by intros [= <-].
  - destruct (py_in (Stations.codename_of a) (PyDict.keys d)); simpl;
      [discriminate |].
    apply IH. by apply dict_setitem_wf.
Qed.

Lemma dict_delitem_wf d d' (k : string) :
  PyDict.wf d → PyDict.delitem k d = Ok d' → PyDict.wf d'.
Proof.
  intros Hwf Hdel. unfold PyDict.wf.
  rewrite (dict_delitem_keys _ _ _ Hwf Hdel). by apply NoDup_filter.
Qed.

Lemma reachable_inv r : Stations.reachable r → Stations.registry_inv r.
Proof.
  induction 1 as [name sts r Hinit|a r _ [IHk IHwf]|k value r _ [IHk IHwf]
                 |k r _ [IHk IHwf]].
  - unfold Stations.__init__ in Hinit.
    destruct (Stations.init_loop sts []) as [d|e] eqn:Hloop; [| discriminate].
    simpl in Hinit. injection Hinit as <-. split; [done |]. simpl.
    eapply init_loop_wf; [| exact Hloop]. constructor.
  - split; [done |]. simpl. by apply dict_setitem_wf.
  - split; [done |]. simpl. by apply dict_setitem_wf.
  - unfold Stations.__delitem__.
    destruct k as [i|s]; simpl; [by split |].
    destruct (PyDict.delitem s (Stations._stations r)) as [d'|e] eqn:Hdel;
      simpl; [| by split].
    split; [done |]. simpl. by eapply dict_delitem_wf.
Qed.
End RegistryFacts.

(** C6: the constructor raises [AssertionError] when two stations of the
    input list share a codename; when the codenames are pairwise distinct it
    returns the registry of that name holding the given stations, each under
    its codename, in the order of the list. *)
Theorem init_asserts_distinct_codenames {A : Type} `{!StationLike A}
    (name : string) (sts : list A) :
  (NoDup (Stations.codename_of <$> sts) →
   Stations.__init__ name sts
   = Ok {| Stations._name := name;
           Stations._stations := Stations.entry_of <$> sts;
           Stations._keys := Stations.codename_of <$> sts |})
  ∧ (¬ NoDup (Stations.codename_of <$> sts) →
     Stations.__init__ name sts = Raise AssertionError).
Proof.
  unfold Stations.__init__. split.
  - intros Hnd. rewrite (init_loop_distinct sts [] Hnd).
    + simpl. do 2 f_equal. unfold PyDict.keys.
      rewrite <- list_fmap_compose. done.
    + intros a _. apply not_elem_of_nil.
  - intros Hdup. rewrite init_loop_duplicate; [done |].
    intros [Hnd _]. by apply Hdup.
Qed.

Lemma init_asserts_distinct_codenames_witness :
  Stations.__init__ "EVN" [Ef; Jb2] = Ok evn
  ∧ Stations.__init__ "EVN" [Ef; Jb2; Ef'] = Raise AssertionError.
Proof.
  split.
  - refine (proj1 (init_asserts_distinct_codenames "EVN" [Ef; Jb2]) _).
    apply (bool_decide_unpack _). vm_compute. exact I.
  - refine (proj2 (init_asserts_distinct_codenames "EVN" [Ef; Jb2; Ef']) _).
    apply (bool_decide_eq_false_1 _). vm_compute. reflexivity.
Defined.

(** C3: [add] returns normally in both cases. For a station whose codename
    the registry does not hold yet, the number of stations grows by one and
    the codename becomes the last element of [keys()]; for a codename
    already held, the number of stations and the order of the keys stay as
    they were. Either way the registry then returns the added station under
    its codename and every other codename answers as before. *)
Theorem add_new_or_existing {A : Type} `{!StationLike A}
    (a : A) (r : Stations.t A) :
  let r' := (Stations.add a r).2 in
  (Stations.__contains__ (Stations.codename_of a) r = false →
   Stations.number_of_stations r' = S (Stations.number_of_stations r)
   ∧ last (Stations.keys r') = Some (Stations.codename_of a)
   ∧ Stations.__getitem__ (key_str (Stations.codename_of a)) r' = Ok a)
  ∧ (Stations.__contains__ (Stations.codename_of a) r = true →
     Stations.number_of_stations r' = Stations.number_of_stations r
     ∧ Stations.keys r' = PyDict.keys (Stations._stations r)
     ∧ Stations.__getitem__ (key_str (Stations.codename_of a)) r' = Ok a)
  ∧ (∀ k, k ≠ Stations.codename_of a →
          Stations.__getitem__ (key_str k) r'
          = Stations.__getitem__ (key_str k) r).
Proof.
  unfold Stations.__contains__, Stations.number_of_stations, Stations.stations,
    Stations.keys, Stations.add. simpl.
  rewrite dict_contains_keys, !dict_length_values.
  split_and!; [| | intros k Hk; by apply dict_setitem_get_other].
  - intros Hnew. apply py_in_false in Hnew.
    rewrite dict_setitem_keys_new by done.
    rewrite dict_setitem_new by done.
    split_and!.
    + rewrite length_app. simpl. lia.
    + apply last_snoc.
    + rewrite <- (dict_setitem_new _ a) by done. apply dict_setitem_get.
  - intros Hold. apply py_in_true in Hold.
    split_and!.
    + rewrite <- !dict_length_keys. by rewrite dict_setitem_keys_old.
    + by apply dict_setitem_keys_old.
    + apply dict_setitem_get.
Qed.

Lemma add_new_or_existing_witness :
  (Stations.number_of_stations (Stations.add Wb evn).2 = 3%nat
   ∧ last (Stations.keys (Stations.add Wb evn).2) = Some "Wb"
   ∧ Stations.__getitem__ (key_str "Wb") (Stations.add Wb evn).2 = Ok Wb)
  ∧ (Stations.number_of_stations (Stations.add Ef' evn).2 = 2%nat
     ∧ Stations.keys (Stations.add Ef' evn).2 = ["Ef"; "Jb"]
     ∧ Stations.__getitem__ (key_str "Ef") (Stations.add Ef' evn).2 = Ok Ef').
Proof.
  split.
  - refine (proj1 (add_new_or_existing Wb evn) _). reflexivity.
  - refine (proj1 (proj2 (add_new_or_existing Ef' evn)) _). reflexivity.
Defined.

(** C7: in every registry a program can hold, that is after the constructor
    and after any sequence of [add], assignment by key and deletion by key
    or position (whether the deletion succeeds or raises), [keys()] is the
    sequence of the keys of the underlying mapping, in insertion order. *)
Theorem keys_follow_mapping {A : Type} `{!StationLike A} (r : Stations.t A) :
  Stations.reachable r →
  Stations.keys r = PyDict.keys (Stations._stations r).
Proof. intros Hr. by destruct (reachable_inv r Hr). Qed.

Lemma keys_follow_mapping_witness :
  let r := (Stations.__delitem__ (key_str "Ef")
              (Stations.__setitem__ "Ef" Ef'
                 (Stations.__delitem__ (key_int 0)
                    (Stations.add Wb evn).2).2)).2 in
  Stations.keys r = ["Jb"; "Wb"]
  ∧ PyDict.keys (Stations._stations r) = ["Jb"; "Wb"].
Proof.
  intros r.
  assert (Hr : Stations.reachable r).
  { subst r. apply Stations.reach_delitem, Stations.reach_setitem,
      Stations.reach_delitem, Stations.reach_add.
    apply (Stations.reach_init "EVN" [Ef; Jb2]). reflexivity. }
  pose proof (keys_follow_mapping r Hr) as Hkeys.
  split; [rewrite Hkeys |]; reflexivity.
Defined.

(** C8: in a registry a program can hold, for every position [i] with
    [0 <= i < number_of_stations], [registry[i]] and
    [registry[registry.keys()[i]]] both succeed and return the same station,
    the [i]-th of [stations]. *)
Theorem getitem_position_is_getitem_key {A : Type} `{!StationLike A}
    (r : Stations.t A) (i : Z) :
  Stations.reachable r →
  (0 ≤ i < Z.of_nat (Stations.number_of_stations r))%Z →
  ∃ c s, tuple_getitem (Stations.keys r) i = Ok c
         ∧ Stations.__getitem__ (key_int i) r = Ok s
         ∧ Stations.__getitem__ (key_str c) r = Ok s
         ∧ Stations.stations r !! Z.to_nat i = Some s.
Proof.
  intros Hr Hi. destruct (reachable_inv r Hr) as [Hkeys Hwf].
  unfold Stations.number_of_stations, Stations.stations in *.
  rewrite dict_length_values in Hi.
  destruct (lookup_lt_is_Some_2 (Stations._stations r) (Z.to_nat i))
    as [[c s] Hcs]; [lia |].
  exists c, s.
  assert (Htuple : tuple_getitem (Stations.keys r) i = Ok c).
  { unfold tuple_getitem. rewrite Hkeys, dict_length_keys.
    destruct (Z.ltb_spec i 0) as [?|_]; [lia |].
    destruct (Z.leb_spec 0 i) as [_|?]; [| lia].
    destruct (Z.ltb_spec i (Z.of_nat (length (Stations._stations r))))
      as [_|?]; [| lia].
    simpl. unfold PyDict.keys. by rewrite list_lookup_fmap, Hcs. }
  assert (Hget : PyDict.getitem c (Stations._stations r) = Ok s).
  { apply dict_getitem_stored; [done |]. by eapply list_elem_of_lookup_2. }
  split_and!.
  - done.
  - simpl. by rewrite Htuple.
  - done.
  - unfold PyDict.values. by rewrite list_lookup_fmap, Hcs.
Qed.

Lemma getitem_position_is_getitem_key_witness :
  ∃ c s, tuple_getitem (Stations.keys evn) 0 = Ok c
         ∧ Stations.__getitem__ (key_int 0) evn = Ok s
         ∧ Stations.__getitem__ (key_str c) evn = Ok s
         ∧ Stations.stations evn !! Z.to_nat 0 = Some s.
Proof.
  apply (getitem_position_is_getitem_key evn 0).
  - apply (Stations.reach_init "EVN" [Ef; Jb2]). reflexivity.
  - vm_compute. split; [discriminate | reflexivity].
Defined.

(** Deletion by codename, the sibling path of deletion by position: the
    codename leaves the mapping and [keys()], the others keep their order. *)
Lemma delitem_by_key_removes {A : Type} `{!StationLike A}
    (r : Stations.t A) (k : string) :
  Stations.reachable r →
  k ∈ Stations.keys r →
  ∃ r', Stations.__delitem__ (key_str k) r = (Ok tt, r')
        ∧ Stations.keys r' = filter (λ k', k' ≠ k) (Stations.keys r)
        ∧ Stations.keys r' = PyDict.keys (Stations._stations r')
        ∧ Stations.__contains__ k r' = false.
Proof.
  intros Hr Hk. destruct (reachable_inv r Hr) as [Hkeys Hwf].
  unfold Stations.__delitem__.
  destruct (PyDict.delitem k (Stations._stations r)) as [d'|e] eqn:Hdel.
  - eexists. split; [reflexivity |].
    pose proof (dict_delitem_keys _ _ _ Hwf Hdel) as Hd'.
    unfold Stations.keys, Stations.__contains__ in *. simpl.
    rewrite Hkeys, <- Hd'. split_and!; [done | done |].
    rewrite dict_contains_keys. apply py_in_false. rewrite Hd'.
    intros Hin. apply list_elem_of_filter in Hin as [Hne _]. done.
  - apply dict_delitem_raises in Hdel as [_ Hout].
    exfalso. apply Hout. by rewrite <- Hkeys.
Qed.

(** C2: deletion by position raises [TypeError] for every registry and every
    position, in range or not, and removes nothing: the registry, its mapping
    and [keys()] are as before the call. *)
Theorem delitem_by_position_raises {A : Type} `{!StationLike A}
    (r : Stations.t A) (i : Z) :
  Stations.__delitem__ (key_int i) r = (Raise TypeError, r).
Proof. reflexivity. Qed.

Lemma add_fresh {A : Type} `{!StationLike A} (a : A) (r : Stations.t A) :
  Stations.codename_of a ∉ PyDict.keys (Stations._stations r) →
  Stations.add a r
  = ([], {| Stations._name := Stations._name r;
            Stations._stations := Stations._stations r ++ [Stations.entry_of a];
            Stations._keys :=
              PyDict.keys (Stations._stations r ++ [Stations.entry_of a]) |}).
Proof.
  intros Hfresh. unfold Stations.add.
  apply py_in_false in Hfresh as Hin. rewrite Hin.
  by rewrite dict_setitem_new.
Qed.

(** What the body of [stations_with_band] computes in a namespace that binds
    [stations]: the stations with the band, in order, under their codenames,
    and no warning. *)
Lemma with_band_loop_filter {A : Type} `{!StationLike A}
    (band : string) (todo : list A) (antennas : Stations.t A)
    (printed : list string) :
  NoDup (Stations.codename_of <$> todo) →
  (∀ a, a ∈ todo →
        Stations.codename_of a ∉ PyDict.keys (Stations._stations antennas)) →
  Stations._keys antennas = PyDict.keys (Stations._stations antennas) →
  let d := Stations._stations antennas
           ++ (Stations.entry_of
                 <$> filter (λ a, Station.has_band (as_station a) band = true)
                       todo) in
  Stations.with_band_loop band todo antennas printed
  = (printed,
     {| Stations._name := Stations._name antennas;
        Stations._stations := d;
        Stations._keys := PyDict.keys d |}).
Proof.
  revert antennas printed.
  induction todo as [|a todo IH]; intros antennas printed Hnd Hfresh Hkeys.
  - simpl. rewrite app_nil_r, <- Hkeys. by destruct antennas.
  - rewrite fmap_cons in Hnd. apply NoDup_cons in Hnd as [Ha Hnd].
    assert (Hd : Stations.codename_of a
                 ∉ PyDict.keys (Stations._stations antennas))
      by (apply Hfresh; left).
    cbn [Stations.with_band_loop]. unfold Station.has_band.
    destruct (py_in band (Station.bands (as_station a))) eqn:Hband.
    + rewrite filter_cons_True by done.
      rewrite (add_fresh a antennas Hd). cbn [fst snd].
      rewrite app_nil_r, IH; cbn [Stations._stations Stations._keys
                                   Stations._name].
      * rewrite fmap_cons, <- app_assoc. done.
      * done.
      * intros a' Ha'. unfold PyDict.keys. rewrite fmap_app.
        intros Hin. apply elem_of_app in Hin as [Hin|Hin].
        -- by apply (Hfresh a'); [right |].
        -- apply list_elem_of_singleton in Hin. apply Ha.
           change (Stations.codename_of a) with (Stations.entry_of a).1.
           rewrite <- Hin. by apply list_elem_of_fmap_2.
      * done.
    + rewrite filter_cons_False by (rewrite Hband; discriminate).
      apply IH; [done | | done].
      intros a' Ha'. apply Hfresh. by right.
Qed.

Lemma stations_with_band_in_resolved {A : Type} `{!StationLike A}
    (globals : list string) (band : string)
    (output_network_name : option string) (r : Stations.t A) :
  "stations" ∈ globals →
  PyDict.wf (Stations._stations r) →
  Stations.keyed_by_codename r →
  let d := filter (λ e, Station.has_band (as_station e.2) band = true)
             (Stations._stations r) in
  Stations.stations_with_band_in globals band output_network_name r
  = Ok ([], {| Stations._name := default ("Stations@" +:+ band)
                                   output_network_name;
               Stations._stations := d;
               Stations._keys := PyDict.keys d |}).
Proof.
  intros Hbound Hwf Hkeyed d.
  unfold Stations.stations_with_band_in, load_global.
  apply py_in_true in Hbound. rewrite Hbound. simpl.
  assert (Hcn : Stations.codename_of <$> Stations.stations r
                = PyDict.keys (Stations._stations r)).
  { unfold Stations.stations, PyDict.values, PyDict.keys.
    rewrite <- list_fmap_compose. apply list_fmap_ext.
    intros i [k a] Hi. simpl. symmetry. apply Hkeyed.
    by eapply list_elem_of_lookup_2. }
  rewrite with_band_loop_filter; simpl.
  - assert (Hd : Stations.entry_of
                   <$> filter
                         (λ a, Station.has_band (as_station a) band = true)
                         (Stations.stations r) = d).
    { subst d. unfold Stations.stations, PyDict.values.
      revert Hkeyed. unfold Stations.keyed_by_codename.
      generalize (Stations._stations r). clear. intros l.
      induction l as [|[k a] l IH]; intros Hkeyed; [done |].
      assert (Hl : ∀ k0 a0, (k0, a0) ∈ l → k0 = Stations.codename_of a0)
        by (intros k0 a0 H0; apply Hkeyed; by right).
      rewrite fmap_cons. simpl.
      destruct (decide (Station.has_band (as_station a) band = true)) as [Hb|Hb].
      - rewrite (filter_cons_True _ a) by done.
        rewrite (filter_cons_True _ (k, a)) by exact Hb.
        rewrite fmap_cons, (IH Hl).
        f_equal. unfold Stations.entry_of. f_equal. symmetry.
        apply Hkeyed. left.
      - rewrite (filter_cons_False _ a) by done.
        rewrite (filter_cons_False _ (k, a)) by exact Hb.
        apply (IH Hl). }
    rewrite Hd. by destruct output_network_name.
  - by rewrite Hcn.
  - intros a _. apply not_elem_of_nil.
  - done.
Qed.

(** C1: in the namespace of the module, [stations_with_band] raises
    [NameError] for every registry, band and output name: it returns no
    registry. *)
Theorem stations_with_band_raises {A : Type} `{!StationLike A}
    (band : string) (output_network_name : option string) (r : Stations.t A) :
  Stations.stations_with_band band output_network_name r = Raise NameError.
Proof. reflexivity. Qed.

(** * Further properties of the module *)

(** ** Tuples, dictionaries and floats *)

Lemma tuple_getitem_outside {A : Type} (t : list A) (i : Z) :
  (i < - Z.of_nat (length t) ∨ Z.of_nat (length t) ≤ i)%Z →
  tuple_getitem t i = Raise IndexError.
Proof.
  intros Hi. unfold tuple_getitem.
  destruct (Z.ltb_spec i 0) as [Hneg|Hpos].
  - destruct (Z.leb_spec 0 (i + Z.of_nat (length t))) as [?|_]; [lia | done].
  - destruct (Z.leb_spec 0 i) as [_|?]; [| lia].
    destruct (Z.ltb_spec i (Z.of_nat (length t))) as [?|_]; [lia | done].
Qed.

Lemma tuple_getitem_inside {A : Type} (t : list A) (i : Z) :
  (0 ≤ i < Z.of_nat (length t))%Z →
  ∃ x, t !! Z.to_nat i = Some x ∧ tuple_getitem t i = Ok x.
Proof.
  intros Hi. unfold tuple_getitem.
  destruct (Z.ltb_spec i 0) as [?|_]; [lia |].
  destruct (Z.leb_spec 0 i) as [_|?]; [| lia].
  destruct (Z.ltb_spec i (Z.of_nat (length t))) as [_|?]; [| lia].
  destruct (lookup_lt_is_Some_2 t (Z.to_nat i)) as [x Hx]; [lia |].
  exists x. simpl. by rewrite Hx.
Qed.

Lemma tuple_getitem_from_end {A : Type} (t : list A) (i : Z) :
  (- Z.of_nat (length t) ≤ i < 0)%Z →
  tuple_getitem t i = tuple_getitem t (i + Z.of_nat (length t)).
Proof.
  intros Hi. unfold tuple_getitem.
  destruct (Z.ltb_spec i 0) as [_|?]; [| lia].
  destruct (Z.ltb_spec (i + Z.of_nat (length t)) 0) as [?|_]; [lia | done].
Qed.

Section MoreDictFacts.
Context {V : Type}.
Implicit Types (d : PyDict.dict V) (k : string) (v : V).

Lemma dict_getitem_raises k d e :
  PyDict.getitem k d = Raise e → e = KeyError ∧ k ∉ PyDict.keys d.
Proof.
  induction d as [|[k' v'] d IH]; simpl.
  - intros [= <-]. split; [done | apply not_elem_of_nil].
  - destruct (decide (k = k')) as [->|Hne]; [discriminate |].
    intros He. destruct (IH He) as [-> Hk].
    split; [done |]. by apply not_elem_of_cons.
Qed.

Lemma dict_delitem_missing k d :
  k ∉ PyDict.keys d → PyDict.delitem k d = Raise KeyError.
Proof.
  induction d as [|[k' v'] d IH]; simpl; [done |].
  intros Hk. apply not_elem_of_cons in Hk as [Hne Hk].
  rewrite decide_False by done. by rewrite IH.
Qed.

Lemma dict_delitem_present k d :
  k ∈ PyDict.keys d → ∃ d', PyDict.delitem k d = Ok d'.
Proof.
  intros Hk. destruct (PyDict.delitem k d) as [d'|e] eqn:Hdel; [by eexists |].
  apply dict_delitem_raises in Hdel as [_ Hout]. done.
Qed.

Lemma dict_delitem_length k d d' :
  PyDict.delitem k d = Ok d' → length d = S (length d').
Proof.
  revert d'. induction d as [|[k' v'] d IH]; simpl; intros d'; [discriminate |].
  destruct (decide (k = k')) as [->|Hne]; [by intros [= <-] |].
  destruct (PyDict.delitem k d) as [d0|e0]; [| discriminate].
  intros [= <-]. simpl. by rewrite (IH d0).
Qed.

Lemma dict_delitem_get_other k k' d d' :
  k' ≠ k → PyDict.delitem k d = Ok d' →
  PyDict.getitem k' d' = PyDict.getitem k' d.
Proof.
  intros Hne. revert d'.
  induction d as [|[k0 v0] d IH]; simpl; intros d'; [discriminate |].
  destruct (decide (k = k0)) as [->|Hne0].
  - intros [= <-]. by rewrite decide_False.
  - destruct (PyDict.delitem k d) as [d0|e0]; [| discriminate].
    intros [= <-]. simpl. destruct (decide (k' = k0)); [done | by apply IH].
Qed.

Lemma dict_delitem_snoc k v d :
  k ∉ PyDict.keys d → PyDict.delitem k (d ++ [(k, v)]) = Ok d.
Proof.
  induction d as [|[k' v'] d IH]; simpl; intros Hk.
  - by rewrite decide_True.
  - apply not_elem_of_cons in Hk as [Hne Hk].
    rewrite decide_False by done. by rewrite IH.
Qed.

Lemma dict_setitem_twice k v d :
  PyDict.setitem k v (PyDict.setitem k v d) = PyDict.setitem k v d.
Proof.
  induction d as [|[k' v'] d IH]; simpl.
  - by rewrite decide_True.
  - destruct (decide (k = k')) as [->|Hne]; simpl.
    + by rewrite decide_True.
    + rewrite decide_False by done. by rewrite IH.
Qed.

Lemma dict_setitem_keys_in k v d :
  k ∈ PyDict.keys (PyDict.setitem k v d).
Proof.
  destruct (decide (k ∈ PyDict.keys d)) as [Hin|Hout].
  - by rewrite dict_setitem_keys_old.
  - rewrite dict_setitem_keys_new by done. apply elem_of_app. right. left.
Qed.
End MoreDictFacts.

Lemma SFleb_nan_l (x : spec_float) : SFleb S754_nan x = false.
Proof. reflexivity. Qed.

Lemma SFleb_nan_r (x : spec_float) : SFleb x S754_nan = false.
Proof. by destruct x. Qed.

Lemma SFleb_refl (x : spec_float) : x ≠ S754_nan → SFleb x x = true.
Proof.
  intros Hx. unfold SFleb, SFcompare.
  destruct x as [s|s| |s m e]; [done | by destruct s | done |].
  change (Pos.compare_cont Eq m m) with (m ?= m)%positive.
  rewrite Z.compare_refl, Pos.compare_refl. by destruct s.
Qed.

Lemma SFleb_trans (x y z : spec_float) :
  SFleb x y = true → SFleb y z = true → SFleb x z = true.
Proof.
  unfold SFleb, SFcompare.
  destruct x as [sx|sx| |sx mx ex], y as [sy|sy| |sy my ey],
    z as [sz|sz| |sz mz ez];
    try destruct sx; try destruct sy; try destruct sz; try done;
    change (Pos.compare_cont Eq mx my) with (mx ?= my)%positive;
    change (Pos.compare_cont Eq my mz) with (my ?= mz)%positive;
    change (Pos.compare_cont Eq mx mz) with (mx ?= mz)%positive;
    destruct (Z.compare_spec ex ey), (Z.compare_spec ey ez),
      (Z.compare_spec ex ez); try done; try lia;
    destruct (Pos.compare_spec mx my), (Pos.compare_spec my mz),
      (Pos.compare_spec mx mz); simpl; try done; try lia.
Qed.

(** ** Stations, continued *)

Lemma str_replace_fixed (old new : ascii) (s : string) :
  (∀ i, String.get i s ≠ Some old) → str_replace old new s = s.
Proof.
  induction s as [|c s IH]; simpl; intros Hfree; [done |].
  destruct (Ascii.eqb_spec c old) as [->|_].
  - by destruct (Hfree 0%nat).
  - f_equal. apply IH. intros i. apply (Hfree (S i)).
Qed.

(** X1: the name of a station never holds an underscore; it is the name the
    constructor was given exactly when that one has no underscore, and a
    station built from the name of another shows the same name. *)
Theorem station_name_has_no_underscore
    (nm cn net : string) (loc : EarthLocation) (fs : PyDict.dict spec_float)
    (me : Station.min_elevation_arg) (full alln : option string)
    (country diam : string) (rt : bool) :
  let st := Station.__init__ nm cn net loc fs me full alln country diam rt in
  (∀ i, String.get i (Station.name st) ≠ Some "_"%char)
  ∧ (Station.name st = nm ↔ ∀ i, String.get i nm ≠ Some "_"%char)
  ∧ Station.name
      (Station.__init__ (Station.name st) cn net loc fs me full alln country
         diam rt)
    = Station.name st.
Proof.
  intros st. subst st. unfold Station.name. simpl.
  assert (Hfree : ∀ i, String.get i (str_replace "_" " " nm) ≠ Some "_"%char).
  { intros i. rewrite str_replace_get.
    destruct (String.get i nm) as [c|]; simpl; [| done].
    destruct (Ascii.eqb_spec c "_"); [done | congruence]. }
  split_and!.
  - exact Hfree.
  - split.
    + intros Heq i. rewrite <- Heq. apply Hfree.
    + apply str_replace_fixed.
  - by apply str_replace_fixed.
Qed.

Lemma station_name_has_no_underscore_witness :
  Station.name Jb2 ≠ "Jodrell_Bank_Mk2" ∧ Station.name Wb = "Westerbork".
Proof.
  split.
  - intros Heq.
    apply (proj1 (proj1 (proj2 (station_name_has_no_underscore
      "Jodrell_Bank_Mk2" "Jb" "EVN"
      {| loc_x := Z2SF 3822846; loc_y := Z2SF (-153802);
         loc_z := Z2SF 5086285 |}
      [("18cm", Z2SF 320)] (Station.bare_int 20) None (Some "EVN, eMERLIN")
      "United Kingdom" "25 m" true))) Heq 7%nat).
    reflexivity.
  - refine (proj2 (proj1 (proj2 (station_name_has_no_underscore
      "Westerbork" "Wb" "EVN"
      {| loc_x := Z2SF 3828750; loc_y := Z2SF 442589; loc_z := Z2SF 5064921 |}
      [("6cm", Z2SF 840)] Station.default_min_elevation
      (Some "Westerbork RT1") None "Netherlands" "25 m" false))) _).
    intros i. do 11 (destruct i as [|i]; [discriminate |]). discriminate.
Defined.

(** X2: [sefd] returns a value exactly for the bands [has_band] accepts, and
    the only exception it raises is [KeyError], for the bands [has_band]
    rejects; no assumption on the mapping is needed. *)
Theorem has_band_guards_sefd (st : Station.t) (band : string) :
  (Station.has_band st band = true ↔ ∃ v, Station.sefd st band = Ok v)
  ∧ (Station.has_band st band = false
     ↔ Station.sefd st band = Raise KeyError)
  ∧ (∀ e, Station.sefd st band = Raise e → e = KeyError).
Proof.
  unfold Station.has_band, Station.sefd, Station.bands.
  split_and!.
  - rewrite py_in_true. split; [apply dict_getitem_present |].
    intros [v Hv]. apply dict_getitem_elem in Hv.
    change band with (band, v).1. by apply list_elem_of_fmap_2.
  - rewrite py_in_false. split; [apply dict_getitem_missing |].
    intros He. by apply dict_getitem_raises in He as [_ ?].
  - intros e He. by apply dict_getitem_raises in He as [? _].
Qed.

Lemma has_band_guards_sefd_witness :
  (∃ v, Station.sefd Ef "18cm" = Ok v)
  ∧ Station.sefd Ef "21cm" = Raise KeyError.
Proof.
  split.
  - apply (proj1 (has_band_guards_sefd Ef "18cm")). reflexivity.
  - apply (proj1 (proj2 (has_band_guards_sefd Ef "21cm"))). reflexivity.
Defined.

(** X3: the positions [is_visible] returns are positions of the elevation
    sequence and there are no more of them than elevations; an elevation
    equal to the minimum counts as visible; an elevation that is not a number
    is never visible, and nothing is when the minimum is not a number. *)
Theorem is_visible_bounds_and_edges {Time Target : Type}
    `{!SkyGeometry Time Target}
    (st : Station.t) (obs_times : Time) (target : Target) :
  let elevations := Station.elevation st obs_times target in
  (∀ i, i ∈ Station.is_visible st obs_times target →
        (i < length elevations)%nat)
  ∧ (length (Station.is_visible st obs_times target) ≤ length elevations)%nat
  ∧ (∀ i, deg_value (Station.min_elevation st) ≠ S754_nan →
          elevations !! i = Some (Station.min_elevation st) →
          i ∈ Station.is_visible st obs_times target)
  ∧ (∀ i, elevations !! i = Some (Deg S754_nan) →
          i ∉ Station.is_visible st obs_times target)
  ∧ (deg_value (Station.min_elevation st) = S754_nan →
     Station.is_visible st obs_times target = []).
Proof.
  intros elevations. unfold Station.is_visible, np_where. fold elevations.
  set (mask := (λ e, Quantity_ge e (Station.min_elevation st)) <$> elevations).
  assert (Hlen : ∀ i m, (length (np_where_from i m) ≤ length m)%nat).
  { intros i m. revert i. induction m as [|b m IH]; intros i; simpl; [done |].
    destruct b; simpl; specialize (IH (S i)); lia. }
  split_and!.
  - intros i Hi. apply np_where_from_elem in Hi as (n & -> & Hn).
    apply lookup_lt_Some in Hn. subst mask. by rewrite length_fmap in Hn.
  - etrans; [apply Hlen |]. subst mask. by rewrite length_fmap.
  - intros i Hmin Hi. apply np_where_from_elem. exists i. split; [done |].
    subst mask. rewrite list_lookup_fmap, Hi. simpl. f_equal.
    by apply SFleb_refl.
  - intros i Hi Hin. apply np_where_from_elem in Hin as (n & Heq & Hn).
    simpl in Heq. subst n. subst mask.
    rewrite list_lookup_fmap, Hi in Hn. simpl in Hn.
    unfold Quantity_ge in Hn. simpl in Hn. rewrite SFleb_nan_r in Hn. done.
  - intros Hnan. apply elem_of_nil_inv. intros i Hin.
    apply np_where_from_elem in Hin as (n & _ & Hn). subst mask.
    rewrite list_lookup_fmap in Hn.
    destruct (elevations !! n) as [e|]; [| done]. simpl in Hn.
    unfold Quantity_ge in Hn. rewrite Hnan in Hn. done.
Qed.

Lemma is_visible_bounds_and_edges_witness :
  0%nat ∈ Station.is_visible Ef [20; 5]%Z tt
  ∧ (∀ i, i ∈ Station.is_visible Ef [20; 5]%Z tt → (i < 2)%nat).
Proof.
  pose proof (is_visible_bounds_and_edges Ef [20; 5]%Z tt)
    as (Hrange & _ & Hedge & _).
  split.
  - apply Hedge; [discriminate | reflexivity].
  - exact Hrange.
Defined.

(** X4: of two stations at the same observer, the one with the lower (or
    equal) minimum elevation sees the target at every time the other one
    does. *)
Theorem is_visible_grows_as_minimum_drops {Time Target : Type}
    `{!SkyGeometry Time Target}
    (low high : Station.t) (obs_times : Time) (target : Target) :
  Station.observer low = Station.observer high →
  Quantity_ge (Station.min_elevation high) (Station.min_elevation low) = true →
  ∀ i, i ∈ Station.is_visible high obs_times target →
       i ∈ Station.is_visible low obs_times target.
Proof.
  unfold Station.is_visible, Station.elevation, np_where.
  intros -> Hmin i Hi.
  apply np_where_from_elem in Hi as (n & -> & Hn).
  apply np_where_from_elem. exists n. split; [done |].
  rewrite list_lookup_fmap in *.
  destruct (alt (observer_altaz (Station.observer high) obs_times target) !! n)
    as [e|]; [| done].
  simpl in *. f_equal. injection Hn as Hn.
  unfold Quantity_ge in *. by eapply SFleb_trans.
Qed.

Lemma is_visible_grows_as_minimum_drops_witness :
  2%nat ∈ Station.is_visible Ef [10; 22; 30]%Z tt.
Proof.
  apply (is_visible_grows_as_minimum_drops Ef Ef25 [10; 22; 30]%Z tt).
  - reflexivity.
  - reflexivity.
  - apply (bool_decide_unpack _). vm_compute. exact I.
Defined.

(** X5: the constructor of [SelectedStation] stores the flag it is given
    without the check of the setter, so a station can hold a flag that is not
    a [bool], which the setter then refuses to assign again. *)
Theorem selected_unchecked_at_construction
    (nm cn net : string) (loc : EarthLocation) (fs : PyDict.dict spec_float)
    (me : Station.min_elevation_arg) (full alln : option string)
    (country diam : string) (rt : bool) (v : pyval) :
  let s := SelectedStation.__init__ nm cn net loc fs me full alln country diam
             rt v in
  SelectedStation.selected s = v
  ∧ (isinstance_bool v = false →
     SelectedStation.set_selected (SelectedStation.selected s) s
     = (Raise AssertionError, s)).
Proof.
  intros s. split; [done |].
  intros Hv. unfold SelectedStation.set_selected. subst s. simpl.
  by rewrite Hv.
Qed.

Lemma selected_unchecked_at_construction_witness :
  let s := SelectedStation.__init__ "Westerbork" "Wb" "EVN"
             {| loc_x := Z2SF 3828750; loc_y := Z2SF 442589;
                loc_z := Z2SF 5064921 |}
             [("6cm", Z2SF 840)] Station.default_min_elevation None None
             "Netherlands" "25 m" false (PyInt 1) in
  SelectedStation.set_selected (SelectedStation.selected s) s
  = (Raise AssertionError, s).
Proof.
  intros s.
  refine (proj2 (selected_unchecked_at_construction "Westerbork" "Wb" "EVN"
             {| loc_x := Z2SF 3828750; loc_y := Z2SF 442589;
                loc_z := Z2SF 5064921 |}
             [("6cm", Z2SF 840)] Station.default_min_elevation None None
             "Netherlands" "25 m" false (PyInt 1)) _).
  reflexivity.
Defined.

(** ** Registries, continued *)

Section MoreRegistryFacts.
Context {A : Type} `{!StationLike A}.
Implicit Types (r : Stations.t A) (a : A) (d : PyDict.dict A).

Lemma registry_inv_sizes r :
  Stations.registry_inv r →
  length (Stations.keys r) = Stations.number_of_stations r.
Proof.
  intros [Hkeys _]. unfold Stations.number_of_stations, Stations.stations.
  by rewrite Hkeys, dict_length_keys, dict_length_values.
Qed.

Lemma registry_getitem_at r (j : nat) (c : string) (s : A) :
  Stations.registry_inv r →
  (Stations._stations r : list (string * A)) !! j = Some (c, s) →
  Stations.keys r !! j = Some c
  ∧ Stations.stations r !! j = Some s
  ∧ Stations.__getitem__ (key_str c) r = Ok s.
Proof.
  intros [Hkeys Hwf] Hj. split_and!.
  - rewrite Hkeys. unfold PyDict.keys. by rewrite list_lookup_fmap, Hj.
  - unfold Stations.stations, PyDict.values. by rewrite list_lookup_fmap, Hj.
  - simpl. apply dict_getitem_stored; [done |].
    by eapply list_elem_of_lookup_2.
Qed.

Lemma registry_getitem_inside r (i : Z) :
  Stations.registry_inv r →
  (0 ≤ i < Z.of_nat (Stations.number_of_stations r))%Z →
  ∃ s, Stations.stations r !! Z.to_nat i = Some s
       ∧ Stations.__getitem__ (key_int i) r = Ok s.
Proof.
  intros Hinv Hi. rewrite <- (registry_inv_sizes r Hinv) in Hi.
  destruct (tuple_getitem_inside (Stations.keys r) i Hi) as (c & Hc & Hget).
  destruct Hinv as [Hkeys Hwf].
  assert (Hentry : ∃ s, (Stations._stations r : list (string * A))
                          !! Z.to_nat i = Some (c, s)).
  { rewrite Hkeys in Hc. unfold PyDict.keys in Hc.
    rewrite list_lookup_fmap in Hc.
    destruct ((Stations._stations r : list (string * A)) !! Z.to_nat i)
      as [[c' s]|]; [| done].
    injection Hc as ->. by exists s. }
  destruct Hentry as [s Hs]. exists s.
  destruct (registry_getitem_at r _ c s (conj Hkeys Hwf) Hs) as (_ & Hst & Hk).
  split; [done |]. simpl. rewrite Hget. exact Hk.
Qed.

Lemma dict_setitem_elem (k : string) (v : A) d (x : string * A) :
  x ∈ PyDict.setitem k v d → x = (k, v) ∨ x ∈ d.
Proof.
  induction d as [|[k' v'] d IH]; simpl.
  - intros Hx. left. by apply list_elem_of_singleton in Hx.
  - destruct (decide (k = k')) as [->|Hne]; intros Hx;
      apply elem_of_cons in Hx as [->|Hx].
    + by left.
    + right. by right.
    + right. left.
    + destruct (IH Hx) as [->|Hd]; [by left | right; by right].
Qed.

Lemma dict_delitem_elem (k : string) d d' (x : string * A) :
  PyDict.delitem k d = Ok d' → x ∈ d' → x ∈ d.
Proof.
  revert d'. induction d as [|[k' v'] d IH]; simpl; intros d'; [discriminate |].
  destruct (decide (k = k')) as [->|Hne].
  - intros [= <-] Hx. by right.
  - destruct (PyDict.delitem k d) as [d0|e0]; [| discriminate].
    intros [= <-] Hx. apply elem_of_cons in Hx as [->|Hx]; [left |].
    right. by apply (IH d0).
Qed.

Lemma built_reachable r : Stations.built r → Stations.reachable r.
Proof.
  induction 1 as [name sts r Hinit|a r _ IH|k r _ IH].
  - by eapply Stations.reach_init.
  - by apply Stations.reach_add.
  - by apply Stations.reach_delitem.
Qed.

Lemma init_loop_keyed (sts : list A) d d' :
  (∀ k a, (k, a) ∈ d → k = Stations.codename_of a) →
  Stations.init_loop sts d = Ok d' →
  ∀ k a, (k, a) ∈ d' → k = Stations.codename_of a.
Proof.
  revert d. induction sts as [|a0 sts IH]; intros d Hd; simpl.
  - by intros [= <-].
  - destruct (py_in (Stations.codename_of a0) (PyDict.keys d)); simpl;
      [discriminate |].
    apply IH. intros k a Hka.
    apply dict_setitem_elem in Hka as [[= -> ->]|Hka]; [done | by apply Hd].
Qed.

Lemma built_keyed r : Stations.built r → Stations.keyed_by_codename r.
Proof.
  unfold Stations.keyed_by_codename.
  induction 1 as [name sts r Hinit|a0 r _ IH|k0 r _ IH]; intros k a Hka.
  - unfold Stations.__init__ in Hinit.
    destruct (Stations.init_loop sts []) as [d|e] eqn:Hloop; [| discriminate].
    simpl in Hinit. injection Hinit as <-. simpl in Hka.
    eapply init_loop_keyed; [| exact Hloop | exact Hka].
    intros k' a' H'. inversion H'.
  - simpl in Hka.
    apply dict_setitem_elem in Hka as [[= -> ->]|Hka]; [done | by apply IH].
  - unfold Stations.__delitem__ in Hka. destruct k0 as [i|s]; simpl in Hka;
      [by apply IH |].
    destruct (PyDict.delitem s (Stations._stations r)) as [d'|e] eqn:Hdel;
      simpl in Hka; [| by apply IH].
    apply IH. by eapply dict_delitem_elem.
Qed.
End MoreRegistryFacts.

(** X6: in a registry a program can hold, lookup by position returns a
    station exactly for the positions from [-n] to [n - 1], [n] the number of
    stations, and raises [IndexError] exactly for the others. *)
Theorem getitem_position_range {A : Type} `{!StationLike A}
    (r : Stations.t A) (i : Z) :
  Stations.reachable r →
  let n := Z.of_nat (Stations.number_of_stations r) in
  ((- n ≤ i < n)%Z ↔ ∃ s, Stations.__getitem__ (key_int i) r = Ok s)
  ∧ ((i < - n ∨ n ≤ i)%Z
     ↔ Stations.__getitem__ (key_int i) r = Raise IndexError).
Proof.
  intros Hr n. pose proof (reachable_inv r Hr) as Hinv.
  pose proof (registry_inv_sizes r Hinv) as Hsize.
  assert (Hin : (- n ≤ i < n)%Z →
                ∃ s, Stations.__getitem__ (key_int i) r = Ok s).
  { intros Hi. destruct (Z.ltb_spec i 0) as [Hneg|Hpos].
    - destruct (registry_getitem_inside r (i + n) Hinv) as (s & _ & Hs);
        [subst n; lia |].
      exists s. simpl in *.
      rewrite tuple_getitem_from_end by (rewrite Hsize; subst n; lia).
      by rewrite Hsize.
    - destruct (registry_getitem_inside r i Hinv) as (s & _ & Hs);
        [subst n; lia |].
      by exists s. }
  assert (Hout : (i < - n ∨ n ≤ i)%Z →
                 Stations.__getitem__ (key_int i) r = Raise IndexError).
  { intros Hi. simpl.
    rewrite tuple_getitem_outside by (rewrite Hsize; subst n; lia). done. }
  split; split; [done | | done |].
  - intros [s Hs]. destruct (decide (- n ≤ i < n)%Z) as [?|Hno]; [done |].
    rewrite Hout in Hs by lia. discriminate.
  - intros He. destruct (decide (i < - n ∨ n ≤ i)%Z) as [?|Hno]; [done |].
    destruct Hin as [s Hs]; [lia |]. rewrite Hs in He. discriminate.
Qed.

Lemma getitem_position_range_witness :
  (∃ s, Stations.__getitem__ (key_int (-2)) evn = Ok s)
  ∧ Stations.__getitem__ (key_int 2) evn = Raise IndexError.
Proof.
  assert (Hr : Stations.reachable evn)
    by (apply (Stations.reach_init "EVN" [Ef; Jb2]); reflexivity).
  split.
  - apply (proj1 (proj1 (getitem_position_range evn (-2) Hr))).
    vm_compute. split; [discriminate | reflexivity].
  - apply (proj1 (proj2 (getitem_position_range evn 2 Hr))).
    right. vm_compute. discriminate.
Defined.

(** X7: a negative position counts from the end: for [-n <= i < 0],
    [registry[i]] is [registry[i + n]], the station at place [i + n] of
    [stations]. *)
Theorem getitem_negative_position {A : Type} `{!StationLike A}
    (r : Stations.t A) (i : Z) :
  Stations.reachable r →
  let n := Z.of_nat (Stations.number_of_stations r) in
  (- n ≤ i < 0)%Z →
  ∃ s, Stations.__getitem__ (key_int i) r = Ok s
       ∧ Stations.__getitem__ (key_int (i + n)) r = Ok s
       ∧ Stations.stations r !! Z.to_nat (i + n) = Some s.
Proof.
  intros Hr n Hi. pose proof (reachable_inv r Hr) as Hinv.
  pose proof (registry_inv_sizes r Hinv) as Hsize.
  destruct (registry_getitem_inside r (i + n) Hinv) as (s & Hst & Hs);
    [subst n; lia |].
  exists s. split_and!; [| done | done].
  simpl in *. rewrite tuple_getitem_from_end by (rewrite Hsize; subst n; lia).
  by rewrite Hsize.
Qed.

Lemma getitem_negative_position_witness :
  ∃ s, Stations.__getitem__ (key_int (-1)) evn = Ok s
       ∧ Stations.__getitem__ (key_int (-1 + 2)) evn = Ok s
       ∧ Stations.stations evn !! Z.to_nat (-1 + 2) = Some s.
Proof.
  apply (getitem_negative_position evn (-1)).
  - apply (Stations.reach_init "EVN" [Ef; Jb2]). reflexivity.
  - vm_compute. split; [discriminate | reflexivity].
Defined.

(** X8: deleting a codename the registry holds succeeds: the number of
    stations drops by one, the codename is gone from [keys()], from
    containment and from lookup, and the other codenames keep their order and
    their stations. *)
Theorem delitem_codename_removes_one {A : Type} `{!StationLike A}
    (r : Stations.t A) (k : string) :
  Stations.reachable r →
  Stations.__contains__ k r = true →
  ∃ r', Stations.__delitem__ (key_str k) r = (Ok tt, r')
        ∧ S (Stations.number_of_stations r') = Stations.number_of_stations r
        ∧ Stations.keys r' = filter (λ k', k' ≠ k) (Stations.keys r)
        ∧ Stations.__contains__ k r' = false
        ∧ Stations.__getitem__ (key_str k) r' = Raise KeyError
        ∧ (∀ k', k' ≠ k →
                 Stations.__getitem__ (key_str k') r'
                 = Stations.__getitem__ (key_str k') r)
        ∧ Stations.name r' = Stations.name r.
Proof.
  intros Hr Hk. destruct (reachable_inv r Hr) as [Hkeys Hwf].
  unfold Stations.__contains__ in Hk. rewrite dict_contains_keys in Hk.
  apply py_in_true in Hk.
  destruct (dict_delitem_present k _ Hk) as [d' Hdel].
  unfold Stations.__delitem__. rewrite Hdel. eexists. split; [reflexivity |].
  pose proof (dict_delitem_keys _ _ _ Hwf Hdel) as Hd'.
  assert (Hgone : k ∉ PyDict.keys d').
  { rewrite Hd'. intros Hin. by apply list_elem_of_filter in Hin as [? _]. }
  unfold Stations.number_of_stations, Stations.stations, Stations.keys,
    Stations.__contains__, Stations.name in *. simpl.
  rewrite !dict_length_values, dict_contains_keys, Hkeys.
  split_and!.
  - symmetry. by eapply dict_delitem_length.
  - done.
  - by apply py_in_false.
  - by apply dict_getitem_missing.
  - intros k' Hne. by eapply dict_delitem_get_other.
  - done.
Qed.

Lemma delitem_codename_removes_one_witness :
  ∃ r', Stations.__delitem__ (key_str "Ef") evn = (Ok tt, r')
        ∧ S (Stations.number_of_stations r') = Stations.number_of_stations evn
        ∧ Stations.keys r' = filter (λ k', k' ≠ "Ef") (Stations.keys evn)
        ∧ Stations.__contains__ "Ef" r' = false
        ∧ Stations.__getitem__ (key_str "Ef") r' = Raise KeyError
        ∧ (∀ k', k' ≠ "Ef" →
                 Stations.__getitem__ (key_str k') r'
                 = Stations.__getitem__ (key_str k') evn)
        ∧ Stations.name r' = Stations.name evn.
Proof.
  apply (delitem_codename_removes_one evn "Ef").
  - apply (Stations.reach_init "EVN" [Ef; Jb2]). reflexivity.
  - reflexivity.
Defined.

(** X9: deleting a codename the registry does not hold raises [KeyError]
    and leaves the registry as it was. *)
Theorem delitem_missing_codename {A : Type} `{!StationLike A}
    (r : Stations.t A) (k : string) :
  Stations.__contains__ k r = false →
  Stations.__delitem__ (key_str k) r = (Raise KeyError, r).
Proof.
  unfold Stations.__contains__, Stations.__delitem__.
  rewrite dict_contains_keys. intros Hk. apply py_in_false in Hk.
  by rewrite dict_delitem_missing.
Qed.

Lemma delitem_missing_codename_witness :
  Stations.__delitem__ (key_str "Wb") evn = (Raise KeyError, evn).
Proof. apply (delitem_missing_codename evn "Wb"). reflexivity. Defined.

(** X10: after [registry[k] = value] the registry returns [value] under [k]
    and holds [k]; every other key answers as before; a key already held
    keeps its place in [keys()] and the number of stations, a new key goes
    last and the number grows by one. The key need not be the codename of the
    station. *)
Theorem setitem_stores_under_key {A : Type} `{!StationLike A}
    (r : Stations.t A) (k : string) (value : A) :
  Stations.reachable r →
  let r' := Stations.__setitem__ k value r in
  Stations.__getitem__ (key_str k) r' = Ok value
  ∧ Stations.__contains__ k r' = true
  ∧ (∀ k', k' ≠ k →
           Stations.__getitem__ (key_str k') r'
           = Stations.__getitem__ (key_str k') r)
  ∧ (Stations.__contains__ k r = true →
     Stations.keys r' = Stations.keys r
     ∧ Stations.number_of_stations r' = Stations.number_of_stations r)
  ∧ (Stations.__contains__ k r = false →
     Stations.keys r' = Stations.keys r ++ [k]
     ∧ Stations.number_of_stations r' = S (Stations.number_of_stations r)).
Proof.
  intros Hr. destruct (reachable_inv r Hr) as [Hkeys Hwf].
  unfold Stations.__contains__, Stations.number_of_stations, Stations.stations,
    Stations.keys, Stations.__setitem__ in *. simpl.
  rewrite !dict_contains_keys, !dict_length_values, Hkeys.
  split_and!.
  - apply dict_setitem_get.
  - apply py_in_true, dict_setitem_keys_in.
  - intros k' Hne. by apply dict_setitem_get_other.
  - intros Hold. apply py_in_true in Hold.
    split; [by apply dict_setitem_keys_old |].
    rewrite <- !dict_length_keys. by rewrite dict_setitem_keys_old.
  - intros Hnew. apply py_in_false in Hnew.
    split; [by apply dict_setitem_keys_new |].
    rewrite dict_setitem_new by done. rewrite length_app. simpl. lia.
Qed.

Lemma setitem_stores_under_key_witness :
  Stations.__getitem__ (key_str "Xx") (Stations.__setitem__ "Xx" Wb evn)
  = Ok Wb
  ∧ Stations.keys (Stations.__setitem__ "Xx" Wb evn) = ["Ef"; "Jb"; "Xx"]
  ∧ Stations.keys (Stations.__setitem__ "Ef" Wb evn) = ["Ef"; "Jb"].
Proof.
  assert (Hr : Stations.reachable evn)
    by (apply (Stations.reach_init "EVN" [Ef; Jb2]); reflexivity).
  pose proof (setitem_stores_under_key evn "Xx" Wb Hr)
    as (Hget & _ & _ & _ & Hnew).
  pose proof (setitem_stores_under_key evn "Ef" Wb Hr)
    as (_ & _ & _ & Hold & _).
  split_and!.
  - exact Hget.
  - exact (proj1 (Hnew eq_refl)).
  - exact (proj1 (Hold eq_refl)).
Defined.

(** X11: in a registry a program can hold, [len(registry)],
    [number_of_stations], the length of [keys()] and the number of stations
    an iteration yields are one number, and [keys()] holds no codename
    twice. *)
Theorem registry_sizes_agree {A : Type} `{!StationLike A} (r : Stations.t A) :
  Stations.reachable r →
  Stations.__len__ r = Stations.number_of_stations r
  ∧ length (Stations.keys r) = Stations.number_of_stations r
  ∧ length (Stations.__iter__ r) = Stations.number_of_stations r
  ∧ NoDup (Stations.keys r).
Proof.
  intros Hr. pose proof (reachable_inv r Hr) as Hinv.
  pose proof (registry_inv_sizes r Hinv) as Hsize.
  destruct Hinv as [Hkeys Hwf].
  unfold Stations.__len__, Stations.__iter__, Stations.number_of_stations,
    Stations.stations in *.
  split_and!; [by rewrite dict_length_values | done | done |].
  by rewrite Hkeys.
Qed.

Lemma registry_sizes_agree_witness :
  Stations.__len__ (Stations.add Wb evn).2 = 3%nat
  ∧ length (Stations.keys (Stations.add Wb evn).2) = 3%nat.
Proof.
  assert (Hr : Stations.reachable (Stations.add Wb evn).2).
  { apply Stations.reach_add.
    apply (Stations.reach_init "EVN" [Ef; Jb2]). reflexivity. }
  pose proof (registry_sizes_agree _ Hr) as (Hlen & Hkeys & _).
  split; [rewrite Hlen | rewrite Hkeys]; reflexivity.
Defined.

(** X12: in a registry a program can hold, [k in registry] holds exactly
    for the codenames of [keys()], which are exactly those lookup returns a
    station for; for any other codename lookup raises [KeyError]. *)
Theorem contains_guards_getitem {A : Type} `{!StationLike A}
    (r : Stations.t A) (k : string) :
  Stations.reachable r →
  (Stations.__contains__ k r = true ↔ k ∈ Stations.keys r)
  ∧ (Stations.__contains__ k r = true
     ↔ ∃ s, Stations.__getitem__ (key_str k) r = Ok s)
  ∧ (Stations.__contains__ k r = false
     ↔ Stations.__getitem__ (key_str k) r = Raise KeyError).
Proof.
  intros Hr. destruct (reachable_inv r Hr) as [Hkeys _].
  unfold Stations.__contains__. rewrite dict_contains_keys, Hkeys. simpl.
  split_and!.
  - apply py_in_true.
  - rewrite py_in_true. split; [apply dict_getitem_present |].
    intros [s Hs]. apply dict_getitem_elem in Hs.
    change k with (k, s).1. by apply list_elem_of_fmap_2.
  - rewrite py_in_false. split; [apply dict_getitem_missing |].
    intros He. by apply dict_getitem_raises in He as [_ ?].
Qed.

Lemma contains_guards_getitem_witness :
  "Jb" ∈ Stations.keys evn
  ∧ Stations.__getitem__ (key_str "Wb") evn = Raise KeyError.
Proof.
  assert (Hr : Stations.reachable evn)
    by (apply (Stations.reach_init "EVN" [Ef; Jb2]); reflexivity).
  split.
  - apply (proj1 (proj1 (contains_guards_getitem evn "Jb" Hr))). reflexivity.
  - apply (proj1 (proj2 (proj2 (contains_guards_getitem evn "Wb" Hr)))).
    reflexivity.
Defined.

(** X13: iterating over a registry a program can hold yields the stations
    of [stations], in the order of [keys()]: the station at a place is the
    one lookup returns for the codename at that place. *)
Theorem iteration_follows_keys {A : Type} `{!StationLike A}
    (r : Stations.t A) :
  Stations.reachable r →
  Stations.__iter__ r = Stations.stations r
  ∧ ∀ j c, Stations.keys r !! j = Some c →
           ∃ s, Stations.__iter__ r !! j = Some s
                ∧ Stations.__getitem__ (key_str c) r = Ok s.
Proof.
  intros Hr. pose proof (reachable_inv r Hr) as Hinv.
  split; [done |]. intros j c Hc.
  assert (Hentry : ∃ s, (Stations._stations r : list (string * A)) !! j
                        = Some (c, s)).
  { destruct Hinv as [Hkeys _]. rewrite Hkeys in Hc.
    unfold PyDict.keys in Hc. rewrite list_lookup_fmap in Hc.
    destruct ((Stations._stations r : list (string * A)) !! j)
      as [[c' s]|]; [| done].
    injection Hc as ->. by exists s. }
  destruct Hentry as [s Hs]. exists s.
  by destruct (registry_getitem_at r j c s Hinv Hs) as (_ & ? & ?).
Qed.

Lemma iteration_follows_keys_witness :
  ∃ s, Stations.__iter__ evn !! 1%nat = Some s
       ∧ Stations.__getitem__ (key_str "Jb") evn = Ok s.
Proof.
  refine (proj2 (iteration_follows_keys evn _) 1%nat "Jb" _).
  - apply (Stations.reach_init "EVN" [Ef; Jb2]). reflexivity.
  - reflexivity.
Defined.

(** X14: in a registry built by the constructor, [add] and deletion, without
    assignment by key, every station is held under its own codename: lookup
    by a codename returns a station of that codename, and the codenames of
    [stations], in order, are [keys()], with no codename twice. *)
Theorem built_registry_keyed_by_codename {A : Type} `{!StationLike A}
    (r : Stations.t A) :
  Stations.built r →
  (∀ k s, Stations.__getitem__ (key_str k) r = Ok s →
          Stations.codename_of s = k)
  ∧ Stations.codename_of <$> Stations.stations r = Stations.keys r
  ∧ NoDup (Stations.codename_of <$> Stations.stations r).
Proof.
  intros Hb. pose proof (built_keyed r Hb) as Hkeyed.
  destruct (reachable_inv r (built_reachable r Hb)) as [Hkeys Hwf].
  assert (Hcn : Stations.codename_of <$> Stations.stations r
                = Stations.keys r).
  { rewrite Hkeys. unfold Stations.stations, PyDict.values, PyDict.keys.
    rewrite <- list_fmap_compose. apply list_fmap_ext.
    intros i [k a] Hi. simpl. symmetry. apply Hkeyed.
    by eapply list_elem_of_lookup_2. }
  split_and!.
  - intros k s Hs. simpl in Hs. apply dict_getitem_elem in Hs.
    symmetry. by apply Hkeyed.
  - done.
  - rewrite Hcn, Hkeys. exact Hwf.
Qed.

Lemma built_registry_keyed_by_codename_witness :
  Stations.codename_of <$> Stations.stations (Stations.add Wb evn).2
  = ["Ef"; "Jb"; "Wb"].
Proof.
  assert (Hb : Stations.built (Stations.add Wb evn).2).
  { apply Stations.built_add.
    apply (Stations.built_init "EVN" [Ef; Jb2]). reflexivity. }
  pose proof (built_registry_keyed_by_codename _ Hb) as (_ & Hcn & _).
  rewrite Hcn. reflexivity.
Defined.

(** X15: when the constructor returns a registry, the registry has the given
    name, [stations] is the input list, [keys()] its codenames in order, and
    lookup by the codename of an input station returns that station; the
    codenames of the input were then pairwise distinct. *)
Theorem init_round_trip {A : Type} `{!StationLike A}
    (name : string) (sts : list A) (r : Stations.t A) :
  Stations.__init__ name sts = Ok r →
  Stations.name r = name
  ∧ Stations.stations r = sts
  ∧ Stations.keys r = Stations.codename_of <$> sts
  ∧ Stations.number_of_stations r = length sts
  ∧ (∀ a, a ∈ sts →
          Stations.__getitem__ (key_str (Stations.codename_of a)) r = Ok a)
  ∧ NoDup (Stations.codename_of <$> sts).
Proof.
  intros Hinit. unfold Stations.__init__ in Hinit.
  destruct (decide (NoDup (Stations.codename_of <$> sts))) as [Hnd|Hdup].
  - rewrite (init_loop_distinct sts [] Hnd) in Hinit
      by (intros a _; apply not_elem_of_nil).
    simpl in Hinit. injection Hinit as <-.
    assert (Hkeys : PyDict.keys (Stations.entry_of <$> sts)
                    = Stations.codename_of <$> sts).
    { unfold PyDict.keys. by rewrite <- list_fmap_compose. }
    assert (Hvals : PyDict.values (Stations.entry_of <$> sts) = sts).
    { unfold PyDict.values. rewrite <- list_fmap_compose. apply list_fmap_id. }
    unfold Stations.number_of_stations, Stations.stations. simpl.
    rewrite Hvals. split_and!; [done | done | done | done | | done].
    intros a Ha. apply dict_getitem_stored.
    + unfold PyDict.wf. by rewrite Hkeys.
    + by apply (list_elem_of_fmap_2 Stations.entry_of).
  - rewrite init_loop_duplicate in Hinit; [discriminate |].
    intros [Hnd _]. done.
Qed.

Lemma init_round_trip_witness :
  Stations.stations evn = [Ef; Jb2]
  ∧ Stations.__getitem__ (key_str (Stations.codename_of Jb2)) evn = Ok Jb2.
Proof.
  assert (Hinit : Stations.__init__ "EVN" [Ef; Jb2] = Ok evn) by reflexivity.
  pose proof (init_round_trip "EVN" [Ef; Jb2] evn Hinit)
    as (_ & Hsts & _ & _ & Hget & _).
  split; [exact Hsts |].
  apply Hget. apply list_elem_of_further, list_elem_of_here.
Defined.

Lemma add_each_fresh {A : Type} `{!StationLike A}
    (sts : list A) (r : Stations.t A) (printed : list string) :
  NoDup (Stations.codename_of <$> sts) →
  (∀ a, a ∈ sts → Stations.codename_of a ∉ PyDict.keys (Stations._stations r)) →
  Stations._keys r = PyDict.keys (Stations._stations r) →
  Stations.add_each sts r printed
  = (printed,
     {| Stations._name := Stations._name r;
        Stations._stations := Stations._stations r ++ (Stations.entry_of <$> sts);
        Stations._keys :=
          PyDict.keys (Stations._stations r ++ (Stations.entry_of <$> sts)) |}).
Proof.
  revert r printed.
  induction sts as [|a sts IH]; intros r printed Hnd Hfresh Hkeys.
  - simpl. rewrite app_nil_r, <- Hkeys. by destruct r.
  - rewrite fmap_cons in Hnd. apply NoDup_cons in Hnd as [Ha Hnd].
    assert (Hd : Stations.codename_of a ∉ PyDict.keys (Stations._stations r))
      by (apply Hfresh; left).
    cbn [Stations.add_each]. rewrite (add_fresh a r Hd). cbn [fst snd].
    rewrite app_nil_r, IH; cbn [Stations._stations Stations._keys
                                 Stations._name].
    + rewrite fmap_cons, <- app_assoc. done.
    + done.
    + intros a' Ha'. unfold PyDict.keys. rewrite fmap_app.
      intros Hin. apply elem_of_app in Hin as [Hin|Hin].
      * by apply (Hfresh a'); [right |].
      * apply list_elem_of_singleton in Hin. apply Ha.
        change (Stations.codename_of a) with (Stations.entry_of a).1.
        rewrite <- Hin. by apply list_elem_of_fmap_2.
    + done.
Qed.

Lemma add_each_prints_more {A : Type} `{!StationLike A}
    (sts : list A) (r : Stations.t A) (printed : list string) :
  (length printed ≤ length (Stations.add_each sts r printed).1)%nat.
Proof.
  revert r printed. induction sts as [|a sts IH]; intros r printed; simpl;
    [done |].
  etrans; [| apply IH]. rewrite length_app. lia.
Qed.

Lemma add_each_warns {A : Type} `{!StationLike A}
    (sts : list A) (r : Stations.t A) (printed : list string) :
  ¬ (NoDup (Stations.codename_of <$> sts)
     ∧ ∀ a, a ∈ sts →
            Stations.codename_of a ∉ PyDict.keys (Stations._stations r)) →
  (length printed < length (Stations.add_each sts r printed).1)%nat.
Proof.
  revert r printed. induction sts as [|a sts IH]; intros r printed Hneg.
  - exfalso. apply Hneg. split; [constructor |]. intros a Ha. inversion Ha.
  - cbn [Stations.add_each].
    destruct (decide (Stations.codename_of a
                      ∈ PyDict.keys (Stations._stations r))) as [Hin|Hout].
    + eapply Nat.lt_le_trans; [| apply add_each_prints_more].
      unfold Stations.add. apply py_in_true in Hin. rewrite Hin.
      rewrite length_app. simpl. lia.
    + rewrite (add_fresh a r Hout). cbn [fst snd]. rewrite app_nil_r.
      apply IH. cbn [Stations._stations]. intros [Hnd Hfresh]. apply Hneg.
      unfold PyDict.keys in Hfresh.
      split.
      * rewrite fmap_cons. apply NoDup_cons. split; [| done].
        intros Ha. apply list_elem_of_fmap in Ha as (a' & Heq & Ha').
        apply (Hfresh a' Ha'). rewrite fmap_app, <- Heq.
        apply elem_of_app. right. left.
      * intros a' Ha'. apply elem_of_cons in Ha' as [->|Ha']; [done |].
        intros Hd. apply (Hfresh a' Ha'). rewrite fmap_app.
        apply elem_of_app. by left.
Qed.

(** X16: [add] prints nothing exactly when the codename is new to the
    registry; adding the same station a second time prints the warning that
    names the codename and the registry and leaves the registry as the first
    call left it. *)
Theorem add_again_only_warns {A : Type} `{!StationLike A}
    (a : A) (r : Stations.t A) :
  ((Stations.add a r).1 = []
   ↔ Stations.__contains__ (Stations.codename_of a) r = false)
  ∧ Stations.add a (Stations.add a r).2
    = (["WARNING: " +:+ Stations.codename_of a +:+ " already in "
          +:+ Stations.name r +:+ "."],
       (Stations.add a r).2).
Proof.
  split.
  - unfold Stations.add, Stations.__contains__. rewrite dict_contains_keys.
    simpl. by destruct (py_in _ _).
  - unfold Stations.add at 1. cbn [snd].
    assert (Hin : py_in (Stations.codename_of a)
                    (PyDict.keys (Stations._stations (Stations.add a r).2))
                  = true).
    { apply py_in_true. simpl. apply dict_setitem_keys_in. }
    rewrite Hin. unfold Stations.add, Stations.name. simpl.
    by rewrite dict_setitem_twice.
Qed.

Lemma add_again_only_warns_witness :
  (Stations.add Wb evn).1 = []
  ∧ (Stations.add Wb (Stations.add Wb evn).2).1
    = ["WARNING: Wb already in EVN."].
Proof.
  split.
  - apply (proj1 (add_again_only_warns Wb evn)). reflexivity.
  - rewrite (proj2 (add_again_only_warns Wb evn)). reflexivity.
Defined.

(** X17: in a registry a program can hold, adding a station with a new
    codename and then deleting that codename gives back the registry as it
    was. *)
Theorem add_then_delete_restores {A : Type} `{!StationLike A}
    (a : A) (r : Stations.t A) :
  Stations.reachable r →
  Stations.__contains__ (Stations.codename_of a) r = false →
  Stations.__delitem__ (key_str (Stations.codename_of a)) (Stations.add a r).2
  = (Ok tt, r).
Proof.
  intros Hr Hnew. destruct (reachable_inv r Hr) as [Hkeys _].
  unfold Stations.__contains__ in Hnew. rewrite dict_contains_keys in Hnew.
  apply py_in_false in Hnew.
  rewrite (add_fresh a r Hnew). unfold Stations.__delitem__. cbn [snd].
  cbn [Stations._stations]. unfold Stations.entry_of.
  rewrite dict_delitem_snoc by done.
  unfold Stations.keys in Hkeys. rewrite <- Hkeys. by destruct r.
Qed.

Lemma add_then_delete_restores_witness :
  Stations.__delitem__ (key_str "Wb") (Stations.add Wb evn).2 = (Ok tt, evn).
Proof.
  refine (add_then_delete_restores Wb evn _ _).
  - apply (Stations.reach_init "EVN" [Ef; Jb2]). reflexivity.
  - reflexivity.
Defined.

(** X18: filling an empty registry by one [add] per station never raises.
    When the constructor accepts the list, it gives the registry the
    constructor returns and prints nothing; when the constructor raises
    because of a repeated codename, it prints at least one warning
    instead. *)
Theorem add_each_and_constructor {A : Type} `{!StationLike A}
    (name : string) (sts : list A) :
  ∃ r0, Stations.__init__ name [] = Ok r0
        ∧ (∀ r, Stations.__init__ name sts = Ok r →
                Stations.add_each sts r0 [] = ([], r))
        ∧ (Stations.__init__ name sts = Raise AssertionError →
           (Stations.add_each sts r0 []).1 ≠ []).
Proof.
  eexists. split; [reflexivity |].
  unfold Stations.__init__.
  destruct (decide (NoDup (Stations.codename_of <$> sts))) as [Hnd|Hdup].
  - rewrite (init_loop_distinct sts [] Hnd)
      by (intros a _; apply not_elem_of_nil).
    split; [| discriminate].
    intros r [= <-]. rewrite add_each_fresh; [done | done | | done].
    intros a _. apply not_elem_of_nil.
  - rewrite init_loop_duplicate by (intros [Hnd _]; done).
    split; [discriminate |]. intros _ Hnil.
    change (@PyDict.keys A []) with (@nil string) in Hnil.
    pose proof (add_each_warns sts
                  {| Stations._name := name; Stations._stations := [];
                     Stations._keys := [] |} []) as Hlt.
    rewrite Hnil in Hlt. simpl in Hlt.
    assert (0 < 0)%nat; [| lia]. apply Hlt. intros [Hnd _]. done.
Qed.

Lemma add_each_and_constructor_witness :
  ∃ r0, Stations.__init__ "EVN" [] = Ok r0
        ∧ Stations.add_each [Ef; Jb2] r0 [] = ([], evn)
        ∧ (Stations.add_each [Ef; Jb2; Ef'] r0 []).1 ≠ [].
Proof.
  destruct (add_each_and_constructor "EVN" [Ef; Jb2]) as (r0 & H0 & Hok & _).
  destruct (add_each_and_constructor "EVN" [Ef; Jb2; Ef'])
    as (r1 & H1 & _ & Hdup).
  exists r0. split; [exact H0 |].
  split; [apply Hok; reflexivity |].
  assert (Heq : r1 = r0) by congruence. rewrite <- Heq.
  apply Hdup. reflexivity.
Defined.
